(** * NVDA visual magnifier: highlight overlay and magnification host

  A shallow embedding of [source/windows_utils.py] and
  [source/visionEnhancementProviders/NVDAMagnifier.py].

  Python integers are unbounded, so they are [Z].  Module-level globals and
  object attributes become record fields threaded through the functions
  that mutate them.  Calls into the operating system and into the
  [win_magnification] binding are recorded in traces or supplied as
  readings by the caller of a model function. *)

From Stdlib Require Import ZArith List Bool Lia String.
From stdpp Require Import base decidable countable finite gmap.
Import ListNotations.

Local Open Scope Z_scope.

(** * Python runtime notions shared by the two files *)
Module python.

(** How a call ends: it returns a value, it raises, or it is blocked in a
    wait that another thread has to end. *)
Inductive outcome (E A : Type) : Type :=
| Returns (a : A)
| Raises (e : E)
| Blocks.
Arguments Returns {E A} a.
Arguments Raises {E A} e.
Arguments Blocks {E A}.

(** ** [threading.Event.wait]

    Time is counted in ticks from the moment the wait starts; [flag n] tells
    whether the flag is set at tick [n].  The wait returns [true] as soon as
    the flag is set and [false] once the timeout (when there is one) has
    elapsed; the tick of the return comes with the answer.  [None] means the
    caller is still blocked after [fuel] further ticks. *)
Definition timed_out (timeout : option nat) (now : nat) : bool :=
  match timeout with
  | Some t => (t <=? now)%nat
  | None => false
  end.

Fixpoint Event_wait_from (flag : nat -> bool) (timeout : option nat)
  (now fuel : nat) : option (bool * nat) :=
  if flag now then Some (true, now)
  else if timed_out timeout now then Some (false, now)
  else match fuel with
       | O => None
       | S fuel' => Event_wait_from flag timeout (S now) fuel'
       end.

Definition Event_wait (flag : nat -> bool) (timeout : option nat)
  (fuel : nat) : option (bool * nat) :=
  Event_wait_from flag timeout 0 fuel.

(** ** [queue.Queue], with counters of the calls that completed *)

Record Queue (A : Type) : Type := MkQueue {
  items : list A;
  puts : nat;
  gets : nat
}.
Arguments MkQueue {A} _ _ _.
Arguments items {A} _.
Arguments puts {A} _.
Arguments gets {A} _.

Definition Queue_new {A : Type} : Queue A :=
  {| items := []; puts := 0; gets := 0 |}.

Definition Queue_put {A : Type} (x : A) (q : Queue A) : Queue A :=
  {| items := items q ++ [x]; puts := S (puts q); gets := gets q |}.

(** [get()] removes the oldest item; on an empty queue the caller blocks,
    which is [None] here and leaves the queue as it is. *)
Definition Queue_get {A : Type} (q : Queue A) : option (A * Queue A) :=
  match items q with
  | [] => None
  | x :: rest => Some (x, {| items := rest; puts := puts q; gets := S (gets q) |})
  end.

(** ** List indexing: a negative index counts from the end of the list and
    an index out of range is an [IndexError], [None] here. *)
Definition py_index {A : Type} (l : list A) (i : Z) : option A :=
  if 0 <=? i then nth_error l (Z.to_nat i)
  else if - Z.of_nat (length l) <=? i
       then nth_error l (Z.to_nat (Z.of_nat (length l) + i))
       else None.

(** ** [dict], in insertion order

    An association list without repeated keys: assigning to a key that is
    present replaces its value in place, assigning to a new key appends it,
    and iteration follows the list. *)
Section Dict.

Context {K V : Type} `{EqDecision K}.

Fixpoint dict_get (k : K) (d : list (K * V)) : option V :=
  match d with
  | [] => None
  | (k', v) :: rest => if decide (k' = k) then Some v else dict_get k rest
  end.

Fixpoint dict_set (k : K) (v : V) (d : list (K * V)) : list (K * V) :=
  match d with
  | [] => [(k, v)]
  | (k', v') :: rest =>
      if decide (k' = k) then (k, v) :: rest else (k', v') :: dict_set k v rest
  end.

(** [d.pop(k, None)] with the returned value dropped. *)
Fixpoint dict_pop (k : K) (d : list (K * V)) : list (K * V) :=
  match d with
  | [] => []
  | (k', v) :: rest =>
      if decide (k' = k) then rest else (k', v) :: dict_pop k rest
  end.

End Dict.

End python.

(** ** The magnification engine binding ([import win_magnification as mag])

  The binding is an external package.  Only the calls the two source files
  make are represented, each as an entry of the trace of calls received by
  the engine, oldest first. *)
Module mag.

Inductive color_effect : Type :=
| COLOR_NO_EFFECT
| COLOR_INVERSION_EFFECT
| COLOR_GRAYSCALE_EFFECT
| COLOR_INVERTED_GRAYSCALE_EFFECT
| COLOR_SEPIA_EFFECT.

Inductive call : Type :=
| initialize
| finalize
| set_fullscreen_transform (level : Z) (offset : Z * Z)
| set_fullscreen_color_effect (effect : color_effect).

(** [mag.types.Rectangle]: a 4-tuple of integers. *)
Definition Rectangle : Type := Z * Z * Z * Z.

End mag.

(** ** [windows_utils.py] *)
Module windows_utils.

Import python.

(** *** Module-level state and the zoom / colour controls *)

(** The globals [mag_on], [curr_color] and [mag_level], together with the
    trace of engine calls. *)
Record globals : Type := Globals {
  mag_on : bool;
  curr_color : Z;
  mag_level : Z;
  engine : list mag.call
}.

(** State right after the module is imported. *)
Definition module_init : globals :=
  {| mag_on := false; curr_color := 0; mag_level := 1; engine := [] |}.

Definition colors : list mag.color_effect :=
  [ mag.COLOR_NO_EFFECT;
    mag.COLOR_INVERSION_EFFECT;
    mag.COLOR_GRAYSCALE_EFFECT;
    mag.COLOR_INVERTED_GRAYSCALE_EFFECT;
    mag.COLOR_SEPIA_EFFECT ].

Definition emit (c : mag.call) (g : globals) : globals :=
  {| mag_on := mag_on g; curr_color := curr_color g;
     mag_level := mag_level g; engine := engine g ++ [c] |}.

Definition run_mag (g : globals) : globals :=
  let g := emit mag.initialize g in
  {| mag_on := true; curr_color := curr_color g;
     mag_level := mag_level g; engine := engine g |}.

Definition exit_mag (g : globals) : globals :=
  let g := emit mag.finalize g in
  {| mag_on := false; curr_color := curr_color g;
     mag_level := mag_level g; engine := engine g |}.

Definition set_level (g : globals) : globals :=
  emit (mag.set_fullscreen_transform 2 (2, 2)) g.

Definition set_pos (x y : Z) (g : globals) : globals :=
  emit (mag.set_fullscreen_transform 2 (x, y)) g.

Definition with_level (l : Z) (g : globals) : globals :=
  {| mag_on := mag_on g; curr_color := curr_color g;
     mag_level := l; engine := engine g |}.

Definition mag_increase (g : globals) : globals :=
  let g := with_level (mag_level g + 1) g in
  emit (mag.set_fullscreen_transform (mag_level g) (2, 2)) g.

Definition mag_decrease (g : globals) : globals :=
  if mag_level g <=? 1 then
    emit (mag.set_fullscreen_transform 1 (2, 2)) g
  else
    let g := with_level (mag_level g - 1) g in
    emit (mag.set_fullscreen_transform (mag_level g) (2, 2)) g.

(** [curr_color += 1; curr_color %= 5], then [colors[curr_color]].  Python's
    [%] with a positive modulus is [Z.modulo]. *)
Definition mag_setColor (g : globals) : option globals :=
  let c := (curr_color g + 1) mod 5 in
  match python.py_index colors c with
  | Some effect =>
      Some {| mag_on := mag_on g; curr_color := c; mag_level := mag_level g;
              engine := engine g ++ [mag.set_fullscreen_color_effect effect] |}
  | None => None
  end.

(** The transform most recently applied to the engine, if any. *)
Definition last_transform (g : globals) : option (Z * (Z * Z)) :=
  match rev (engine g) with
  | mag.set_fullscreen_transform l o :: _ => Some (l, o)
  | _ => None
  end.

(** *** Win32 calls made by the window classes

    [win32api], [win32gui] and [win32con] are external.  Constants stay
    symbolic, a bit-or of flags is the list of its flags, and the effect of a
    call on the operating system is its entry in the trace of calls. *)

Inductive win32con : Type :=
| GWL_EXSTYLE | GWL_STYLE
| WS_EX_TOPMOST | WS_EX_LAYERED | WS_EX_TOOLWINDOW | WS_EX_TRANSPARENT
| WS_SIZEBOX | WS_SYSMENU | WS_CLIPCHILDREN | WS_CAPTION | WS_MAXIMIZEBOX
| WS_CHILD | WS_VISIBLE
| HWND_TOPMOST
| SWP_SHOWWINDOW | SWP_NOZORDER | SWP_NOACTIVATE | SWP_NOMOVE | SWP_NOSIZE
| SW_SHOW | LWA_ALPHA
| WM_CLOSE | WM_DESTROY | WM_USER | WM_SIZE | WM_MOVE | WM_PAINT.

Inductive win32_call : Type :=
| SetProcessDpiAwareness (value : Z)
| CreateWindowEx (ex_style style : list win32con) (rect : mag.Rectangle)
| CreateWindow (style : list win32con) (rect : mag.Rectangle) (parent : option Z)
| SetLayeredWindowAttributes (hwnd : option Z) (key alpha : Z) (flags : list win32con)
| ShowWindow (hwnd : option Z) (cmd : win32con)
| SetWindowLong (hwnd : option Z) (index : win32con) (value : list win32con)
| SetWindowPos (hwnd : option Z) (insert_after : option win32con)
    (rect : mag.Rectangle) (flags : list win32con)
| PostMessage (hwnd : option Z) (message : win32con)
| PostQuitMessage (code : Z).

(** The operating system as the window code affects it. *)
Definition OS : Type := list win32_call.

Definition make_partial_screen (hwnd : option Z) (rectangle : mag.Rectangle)
  (os : OS) : OS :=
  os ++ [ SetWindowLong hwnd GWL_EXSTYLE [WS_EX_TOPMOST; WS_EX_LAYERED];
          SetWindowLong hwnd GWL_STYLE
            [WS_SIZEBOX; WS_SYSMENU; WS_CLIPCHILDREN; WS_CAPTION; WS_MAXIMIZEBOX];
          SetWindowPos hwnd (Some HWND_TOPMOST) rectangle
            [SWP_SHOWWINDOW; SWP_NOZORDER; SWP_NOACTIVATE] ].

(** [max_x] and [max_y] are the readings of [GetSystemMetrics] for
    [SM_CXSCREEN] and [SM_CYSCREEN]. *)
Definition get_fullscreen_size (max_x max_y : Z) : mag.Rectangle :=
  (0, 0, max_x, max_y).

Definition make_fullscreen (hwnd : option Z) (rectangle : mag.Rectangle)
  (os : OS) : OS :=
  os ++ [ SetWindowLong hwnd GWL_EXSTYLE
            [WS_EX_TOPMOST; WS_EX_LAYERED; WS_EX_TOOLWINDOW; WS_EX_TRANSPARENT];
          SetWindowLong hwnd GWL_STYLE [WS_CHILD];
          SetWindowPos hwnd (Some HWND_TOPMOST) rectangle
            [SWP_SHOWWINDOW; SWP_NOZORDER; SWP_NOACTIVATE] ].

(** *** Exceptions and outcomes *)

(** The two [RuntimeError]s the window classes raise, by their message. *)
Inductive exn : Type :=
| RuntimeError_already_running
| RuntimeError_not_started.

(** *** [AbstractWindow], [BasicWindow] and [MagnifierWindow]

    One record holds the attributes of a [MagnifierWindow] object, those it
    inherits included.  A command is a callable applied to its arguments; it
    acts on the operating system and returns a value. *)

Section Window.

Context {Args Result : Type}.

Definition Command : Type := Args -> OS -> Result * OS.

Record Window : Type := MkWindow {
  (** ident of the [threading.Thread] created by [run], if any *)
  _thread : option Z;
  _thread_id : option Z;
  (** the flag of [_window_started_event] *)
  _window_started_event : bool;
  _command : Queue (Command * Args);
  _result : Queue Result;
  hwnd : option Z;
  position : Z * Z;
  size : Z * Z;
  _fullscreen_rectangle : mag.Rectangle;
  _fullscreen_mode : bool;
  magnifier_hwnd : option Z;
  (** [controller.source.raw], the source rectangle of the magnification
      control; [None] until it is first assigned *)
  source_raw : option mag.Rectangle;
  (** whether [AbstractWindow.windows] maps [hwnd] to this object *)
  registered : bool
}.

(** [AbstractWindow.__init__] followed by [MagnifierWindow.__init__]. *)
Definition __init__ : Window :=
  {| _thread := None; _thread_id := None; _window_started_event := false;
     _command := Queue_new; _result := Queue_new; hwnd := None;
     position := (0, 0); size := (400, 400);
     _fullscreen_rectangle := (0, 0, 200, 200); _fullscreen_mode := false;
     magnifier_hwnd := None; source_raw := None; registered := false |}.

(** The [rectangle] property. *)
Definition rectangle (w : Window) : mag.Rectangle :=
  (fst (position w), snd (position w), fst (size w), snd (size w)).

Definition is_alive (w : Window) : bool := _window_started_event w.

Definition fullscreen_mode (w : Window) : bool := _fullscreen_mode w.

Definition current_rectangle (w : Window) : mag.Rectangle :=
  if _fullscreen_mode w then _fullscreen_rectangle w else rectangle w.

End Window.

Arguments Window : clear implicits.
Arguments Command : clear implicits.

(** *** Methods *)

Section Methods.

Context {Args Result : Type}.

Local Abbreviation Window := (Window Args Result).
Local Abbreviation Command := (Command Args Result).

Local Abbreviation state := (Window * OS)%type.

Local Abbreviation outcome := (outcome exn).

Definition with_thread (t : option Z) (w : Window) : Window :=
  {| _thread := t; _thread_id := _thread_id w;
     _window_started_event := _window_started_event w;
     _command := _command w; _result := _result w; hwnd := hwnd w;
     position := position w; size := size w;
     _fullscreen_rectangle := _fullscreen_rectangle w;
     _fullscreen_mode := _fullscreen_mode w;
     magnifier_hwnd := magnifier_hwnd w; source_raw := source_raw w;
     registered := registered w |}.

Definition with_queues (c : Queue (Command * Args)) (r : Queue Result)
  (w : Window) : Window :=
  {| _thread := _thread w; _thread_id := _thread_id w;
     _window_started_event := _window_started_event w;
     _command := c; _result := r; hwnd := hwnd w;
     position := position w; size := size w;
     _fullscreen_rectangle := _fullscreen_rectangle w;
     _fullscreen_mode := _fullscreen_mode w;
     magnifier_hwnd := magnifier_hwnd w; source_raw := source_raw w;
     registered := registered w |}.

Definition with_position (p : Z * Z) (w : Window) : Window :=
  {| _thread := _thread w; _thread_id := _thread_id w;
     _window_started_event := _window_started_event w;
     _command := _command w; _result := _result w; hwnd := hwnd w;
     position := p; size := size w;
     _fullscreen_rectangle := _fullscreen_rectangle w;
     _fullscreen_mode := _fullscreen_mode w;
     magnifier_hwnd := magnifier_hwnd w; source_raw := source_raw w;
     registered := registered w |}.

Definition with_size (sz : Z * Z) (w : Window) : Window :=
  {| _thread := _thread w; _thread_id := _thread_id w;
     _window_started_event := _window_started_event w;
     _command := _command w; _result := _result w; hwnd := hwnd w;
     position := position w; size := sz;
     _fullscreen_rectangle := _fullscreen_rectangle w;
     _fullscreen_mode := _fullscreen_mode w;
     magnifier_hwnd := magnifier_hwnd w; source_raw := source_raw w;
     registered := registered w |}.

Definition with_fullscreen (mode : bool) (r : mag.Rectangle) (w : Window)
  : Window :=
  {| _thread := _thread w; _thread_id := _thread_id w;
     _window_started_event := _window_started_event w;
     _command := _command w; _result := _result w; hwnd := hwnd w;
     position := position w; size := size w;
     _fullscreen_rectangle := r; _fullscreen_mode := mode;
     magnifier_hwnd := magnifier_hwnd w; source_raw := source_raw w;
     registered := registered w |}.

Definition with_source (r : mag.Rectangle) (w : Window) : Window :=
  {| _thread := _thread w; _thread_id := _thread_id w;
     _window_started_event := _window_started_event w;
     _command := _command w; _result := _result w; hwnd := hwnd w;
     position := position w; size := size w;
     _fullscreen_rectangle := _fullscreen_rectangle w;
     _fullscreen_mode := _fullscreen_mode w;
     magnifier_hwnd := magnifier_hwnd w; source_raw := Some r;
     registered := registered w |}.

(** What [create_window] reads from its environment: the calling thread,
    the handles of the two windows it creates, the client rectangle of the
    host window and the two screen metrics. *)
Record creation_reading : Type := MkCreation {
  GetCurrentThreadId : Z;
  host_hwnd : Z;
  control_hwnd : Z;
  host_client_rect : mag.Rectangle;
  SM_CXSCREEN : Z;
  SM_CYSCREEN : Z
}.

(** [MagnifierWindow.create_window], with [AbstractWindow.create_window] and
    [MagnifierWindow._create_window] inlined.  [_register_window_class] only
    sets a class attribute that no modelled method reads.  The call
    [self._on_move()] goes through [win_event]'s [run_event], which posts
    [WM_MOVE] to the window.

    Not represented: the private attribute [__magnifier].  The method binds
    it to a new [mag.WinMagnificationAPI()] before the [is_alive] test, so
    also on a live window, where the call then raises; [_create_window]
    stores [magnifier_hwnd] in that object.  The record has no field for
    the binding, and what the constructor of the engine object does is code
    of the [mag] package.  A result about [create_window] below therefore
    speaks of the attributes declared by [AbstractWindow], [BasicWindow] and
    [MagnifierWindow.magnifier_hwnd] and of the Win32 calls listed here, not
    of the engine binding. *)
Definition create_window (rd : creation_reading) (s : state)
  : outcome unit * state :=
  let '(w, os) := s in
  if is_alive w then (Raises RuntimeError_already_running, s)
  else
    let h := Some (host_hwnd rd) in
    let c := Some (control_hwnd rd) in
    let os :=
      os ++ [ SetProcessDpiAwareness 2;
              CreateWindowEx [WS_EX_TOPMOST; WS_EX_LAYERED; WS_EX_TRANSPARENT]
                [WS_CLIPCHILDREN; WS_CAPTION] (0, 0, 0, 0);
              SetLayeredWindowAttributes h 0 255 [LWA_ALPHA];
              CreateWindow [WS_CHILD; WS_VISIBLE] (host_client_rect rd) h;
              ShowWindow h SW_SHOW;
              PostMessage h WM_MOVE ] in
    let fr := get_fullscreen_size (SM_CXSCREEN rd) (SM_CYSCREEN rd) in
    let os :=
      if _fullscreen_mode w then make_fullscreen h fr os
      else make_partial_screen h (rectangle w) os in
    (Returns tt,
     ({| _thread := _thread w; _thread_id := Some (GetCurrentThreadId rd);
         _window_started_event := true;
         _command := _command w; _result := _result w; hwnd := h;
         position := position w; size := size w;
         _fullscreen_rectangle := fr;
         _fullscreen_mode := _fullscreen_mode w;
         magnifier_hwnd := c; source_raw := source_raw w;
         registered := true |}, os)).

(** [MagnifierWindow._close], with [AbstractWindow._close] inlined. *)
Definition _close (s : state) : outcome unit * state :=
  let '(w, os) := s in
  if negb (is_alive w) then (Raises RuntimeError_not_started, s)
  else
    (Returns tt,
     ({| _thread := _thread w; _thread_id := _thread_id w;
         _window_started_event := false;
         _command := _command w; _result := _result w; hwnd := None;
         position := position w; size := size w;
         _fullscreen_rectangle := _fullscreen_rectangle w;
         _fullscreen_mode := _fullscreen_mode w;
         magnifier_hwnd := None; source_raw := source_raw w;
         registered := false |}, os ++ [PostQuitMessage 0])).

Definition _on_destroy (s : state) : outcome unit * state := _close s.

(** [self._thread_id == win32api.GetCurrentThreadId()]; [None] equals no
    thread id. *)
Definition on_owning_thread (w : Window) (current : Z) : bool :=
  match _thread_id w with
  | Some t => t =? current
  | None => false
  end.

(** [BasicWindow._execute], run by thread [current].  On another thread the
    call [self._on_command_get()] posts [WM_USER], and the final
    [self._result.get()] blocks while the result queue is empty. *)
Definition _execute (current : Z) (command : Command) (args : Args)
  (s : state) : outcome Result * state :=
  let '(w, os) := s in
  if on_owning_thread w current then
    let '(r, os) := command args os in
    (Returns r, (w, os))
  else
    let w := with_queues (Queue_put (command, args) (_command w)) (_result w) w in
    let os := os ++ [PostMessage (hwnd w) WM_USER] in
    match Queue_get (_result w) with
    | Some (r, q) => (Returns r, (with_queues (_command w) q w, os))
    | None => (Blocks, (w, os))
    end.

(** The blocked [self._result.get()] of [_execute], tried again. *)
Definition _execute_resume (s : state) : outcome Result * state :=
  let '(w, os) := s in
  match Queue_get (_result w) with
  | Some (r, q) => (Returns r, (with_queues (_command w) q w, os))
  | None => (Blocks, s)
  end.

(** The [WM_USER] handler [_on_command_get], run by the window's thread. *)
Definition _on_command_get (s : state) : outcome unit * state :=
  let '(w, os) := s in
  match Queue_get (_command w) with
  | Some ((command, args), q) =>
      let '(r, os) := command args os in
      (Returns tt, (with_queues q (Queue_put r (_result w)) w, os))
  | None => (Blocks, s)
  end.

(** The [WM_SIZE] handler; [client] is the reading of [GetClientRect]. *)
Definition _on_resize (client : mag.Rectangle) (s : state)
  : outcome unit * state :=
  let '(w, os) := s in
  let '(_, _, cx, cy) := client in
  let w := if negb (fullscreen_mode w) then with_size (cx, cy) w else w in
  (Returns tt, (w, os ++ [SetWindowPos (magnifier_hwnd w) None client []])).

(** The [WM_MOVE] handler; [frame] is the reading of [GetWindowRect] and the
    three metrics are those of [SM_CXFRAME], [SM_CYFRAME], [SM_CYCAPTION]. *)
Definition _on_move (frame : mag.Rectangle) (cxframe cyframe cycaption : Z)
  (s : state) : outcome unit * state :=
  let '(w, os) := s in
  if fullscreen_mode w then (Returns tt, s)
  else
    let '(x, y, _, _) := frame in
    (Returns tt,
     (with_position (x + 2 * cxframe, y + 2 * cyframe + cycaption) w, os)).

(** The [WM_PAINT] handler. *)
Definition _draw (s : state) : outcome unit * state :=
  let '(w, os) := s in
  if negb (is_alive w) then (Returns tt, s)
  else
    let w := with_source (current_rectangle w) w in
    match hwnd w with
    | None => (Returns tt, (w, os))
    | Some _ =>
        (Returns tt,
         (w, os ++ [SetWindowPos (hwnd w) (Some HWND_TOPMOST) (0, 0, 0, 0)
                      [SWP_NOACTIVATE; SWP_NOMOVE; SWP_NOSIZE]]))
    end.

(** [on_event] of [win_event]: the handler runs only when the registry maps
    the handle to the window. *)
Definition on_event (handler : state -> outcome unit * state) (s : state)
  : outcome unit * state :=
  if registered (fst s) then handler s else (Returns tt, s).

(** [BasicWindow.wait_window_start]: the answer of the wait is dropped. *)
Definition wait_window_start (flag : nat -> bool) (timeout : option nat)
  (fuel : nat) : option nat :=
  match Event_wait flag timeout fuel with
  | Some (_, n) => Some n
  | None => None
  end.

(** The thread started by [run].  With [creation = Some (t, rd)] it completes
    [create_window] at tick [t] with readings [rd]; with [None] it never gets
    that far (a Win32 call of [inner] fails or hangs). *)
Record worker : Type := MkWorker {
  ident : Z;
  creation : option (nat * creation_reading)
}.

(** The window and the operating system at tick [n] after [run] started the
    worker. *)
Definition state_at (wk : worker) (s : state) (n : nat) : state :=
  let s1 := (with_thread (Some (ident wk)) (fst s), snd s) in
  match creation wk with
  | Some (t, rd) => if (t <=? n)%nat then snd (create_window rd s1) else s1
  | None => s1
  end.

(** [BasicWindow.run]: start the worker, then [self.wait_window_start()],
    that is a wait without timeout. *)
Definition run (wk : worker) (s : state) (fuel : nat) : outcome unit * state :=
  match wait_window_start (fun n => is_alive (fst (state_at wk s n))) None fuel with
  | Some n => (Returns tt, state_at wk s n)
  | None => (Blocks, state_at wk s fuel)
  end.

End Methods.

(** *** The magnifier host driven by events

    The commands a [MagnifierWindow] passes to [_execute] take a window
    handle and a rectangle and return [None]. *)

Abbreviation MagnifierArgs := (option Z * mag.Rectangle)%type.

Abbreviation MagnifierWindow := (Window MagnifierArgs unit).

Abbreviation MagnifierState := (MagnifierWindow * OS)%type.

Definition make_fullscreen_command : Command MagnifierArgs unit :=
  fun args os => (tt, make_fullscreen (fst args) (snd args) os).

Definition make_partial_screen_command : Command MagnifierArgs unit :=
  fun args os => (tt, make_partial_screen (fst args) (snd args) os).

(** The setter of the [fullscreen_mode] property, called by thread
    [current]; [max_x] and [max_y] are the screen metrics read by
    [get_fullscreen_size]. *)
Definition set_fullscreen_mode (current : Z) (value : bool) (max_x max_y : Z)
  (s : MagnifierState) : outcome exn unit * MagnifierState :=
  let '(w, os) := s in
  let w := with_fullscreen value (_fullscreen_rectangle w) w in
  if is_alive w then
    if value then
      let w := with_fullscreen value (get_fullscreen_size max_x max_y) w in
      _execute current make_fullscreen_command
        (hwnd w, _fullscreen_rectangle w) (w, os)
    else
      _execute current make_partial_screen_command (hwnd w, rectangle w) (w, os)
  else (Returns tt, (w, os)).

(** What can happen to a magnifier host, with the readings each step takes
    from the operating system. *)
Inductive event : Type :=
| Create (rd : creation_reading)
| Resize (client : mag.Rectangle)
| Move (frame : mag.Rectangle) (cxframe cyframe cycaption : Z)
| Paint
| CommandAvailable
| Destroy
| Toggle (current : Z) (value : bool) (max_x max_y : Z)
| Resume.

Definition handle (e : event) (s : MagnifierState)
  : outcome exn unit * MagnifierState :=
  match e with
  | Create rd => create_window rd s
  | Resize client => on_event (_on_resize client) s
  | Move frame cxframe cyframe cycaption =>
      on_event (_on_move frame cxframe cyframe cycaption) s
  | Paint => on_event _draw s
  | CommandAvailable => on_event _on_command_get s
  | Destroy => on_event _on_destroy s
  | Toggle current value max_x max_y =>
      set_fullscreen_mode current value max_x max_y s
  | Resume => _execute_resume s
  end.

Definition step (s : MagnifierState) (e : event) : MagnifierState :=
  snd (handle e s).

Definition run_events (es : list event) (s : MagnifierState) : MagnifierState :=
  fold_left step es s.

Definition initial : MagnifierState := (__init__, []).




(** *** Concrete situations used below *)

(** A worker whose [create_window] never completes. *)
Definition stuck_worker : worker := {| ident := 11; creation := None |}.

(** A worker that completes [create_window] after 30 ticks on a
    1920 by 1080 screen. *)
Definition desktop : creation_reading :=
  {| GetCurrentThreadId := 11; host_hwnd := 4242; control_hwnd := 4243;
     host_client_rect := (0, 0, 0, 0);
     SM_CXSCREEN := 1920; SM_CYSCREEN := 1080 |}.

Definition prompt_worker : worker :=
  {| ident := 11; creation := Some (30%nat, desktop) |}.


(** A window of integer commands owned by thread 7. *)
Definition owned_by_7 : Window Z Z :=
  {| _thread := Some 7; _thread_id := Some 7; _window_started_event := true;
     _command := Queue_new; _result := Queue_new; hwnd := Some 4242;
     position := (0, 0); size := (400, 400);
     _fullscreen_rectangle := (0, 0, 1920, 1080); _fullscreen_mode := false;
     magnifier_hwnd := Some 4243; source_raw := None; registered := true |}.

Definition successor : Command Z Z := fun n os => (n + 1, os).

(** *** The remaining controls of the engine, and sequences of controls *)

Definition color_names : list string :=
  ["Default"; "Inverted"; "Grayscale"; "Inverted Grayscale"; "Sepia"]%string.

(** [mag_getColor]: [color_names[curr_color]]; [None] is an [IndexError]. *)
Definition mag_getColor (g : globals) : option string :=
  python.py_index color_names (curr_color g).

(** [track]; [x] and [y] are the reading of [GetCursorPos]. *)
Definition track (x y : Z) (g : globals) : globals :=
  emit (mag.set_fullscreen_transform 1 (x, y)) g.

(** One call of a module-level function that touches the engine. *)
Inductive control : Type :=
| Call_run_mag
| Call_exit_mag
| Call_set_level
| Call_set_pos (x y : Z)
| Call_mag_increase
| Call_mag_decrease
| Call_mag_setColor
| Call_track (x y : Z).

Definition perform (c : control) (g : globals) : option globals :=
  match c with
  | Call_run_mag => Some (run_mag g)
  | Call_exit_mag => Some (exit_mag g)
  | Call_set_level => Some (set_level g)
  | Call_set_pos x y => Some (set_pos x y g)
  | Call_mag_increase => Some (mag_increase g)
  | Call_mag_decrease => Some (mag_decrease g)
  | Call_mag_setColor => mag_setColor g
  | Call_track x y => Some (track x y g)
  end.

(** The calls of a list, in order; the first one that raises ends it. *)
Fixpoint perform_all (cs : list control) (g : globals) : option globals :=
  match cs with
  | [] => Some g
  | c :: rest =>
      match perform c g with
      | Some g' => perform_all rest g'
      | None => None
      end
  end.

(** The level of a transform call; other calls carry none. *)
Definition transform_level (c : mag.call) : option Z :=
  match c with
  | mag.set_fullscreen_transform l _ => Some l
  | _ => None
  end.

(** The colour effect most recently applied to the engine, if any. *)
Definition last_effect (g : globals) : option mag.color_effect :=
  match rev (engine g) with
  | mag.set_fullscreen_color_effect e :: _ => Some e
  | _ => None
  end.

(** [mag_setColor] called [n] times in a row. *)
Fixpoint setColor_times (n : nat) (g : globals) : option globals :=
  match n with
  | O => Some g
  | S n' =>
      match mag_setColor g with
      | Some g' => setColor_times n' g'
      | None => None
      end
  end.

(** What every control keeps. *)
Definition engine_sane (g : globals) : Prop :=
  1 <= mag_level g
  /\ 0 <= curr_color g < 5
  /\ Forall (fun c => forall l, transform_level c = Some l -> 1 <= l) (engine g).

(** *** Further notions about the host's life and geometry *)

(** The handles and the registry entry exist exactly while the window is
    alive, and a live window knows its thread. *)
Definition handles_follow_life (s : MagnifierState) : Prop :=
  (is_alive (fst s) = true ->
   hwnd (fst s) <> None /\ magnifier_hwnd (fst s) <> None
   /\ _thread_id (fst s) <> None /\ registered (fst s) = true)
  /\ (is_alive (fst s) = false ->
      hwnd (fst s) = None /\ magnifier_hwnd (fst s) = None
      /\ registered (fst s) = false).

(** The window messages about geometry and painting. *)
Definition is_geometry_message (e : event) : bool :=
  match e with
  | Resize _ | Move _ _ _ _ | Paint => true
  | _ => false
  end.

(** The three calls of [make_fullscreen], as a list. *)
Definition fullscreen_calls (hwnd : option Z) (rectangle : mag.Rectangle)
  : list win32_call :=
  make_fullscreen hwnd rectangle [].

(** The three calls of [make_partial_screen], as a list. *)
Definition partial_screen_calls (hwnd : option Z) (rectangle : mag.Rectangle)
  : list win32_call :=
  make_partial_screen hwnd rectangle [].

(** A live window seen from its owner, thread 11, on the 1920 by 1080
    screen. *)
Definition created : MagnifierState := run_events [Create desktop] initial.

End windows_utils.

(** ** Collaborators of [NVDAMagnifier.py] that live in other files *)

Module locationHelper.

(** Modelled from the spec: [locationHelper.RectLTWH] is not among the
    sources; the data model gives a rectangle as an axis-aligned
    [{left, top, width, height}] in screen coordinates, compared by value.
    A rectangle object is always true in a condition; only [None] is not. *)
Record RectLTWH : Type := MkRectLTWH {
  left : Z;
  top : Z;
  width : Z;
  height : Z
}.

#[global] Instance RectLTWH_eq_dec : EqDecision RectLTWH.
Proof. solve_decision. Defined.

End locationHelper.

Module wx.

(** The geometry of one display as [wx.Display(i).GetGeometry()] reports it:
    origin and size. *)
Record Rect : Type := MkRect {
  x : Z;
  y : Z;
  width : Z;
  height : Z
}.

End wx.

Module mouseHandler.

Definition min_list (d : Z) (l : list Z) : Z := fold_left Z.min l d.
Definition max_list (d : Z) (l : list Z) : Z := fold_left Z.max l d.

(** Modelled from the spec: [getTotalWidthAndHeightAndMinimumPosition] is not
    among the sources.  The overlay covers the union bounding box of all
    connected displays, and the minimum position is the offset of that box
    in virtual-screen coordinates.  With no display the spec only asks that
    the computation does not fail; the box is then empty, at the origin. *)
Definition getTotalWidthAndHeightAndMinimumPosition (displays : list wx.Rect)
  : Z * Z * (Z * Z) :=
  match displays with
  | [] => (0, 0, (0, 0))
  | d :: rest =>
      let smallestX := min_list (wx.x d) (map wx.x rest) in
      let smallestY := min_list (wx.y d) (map wx.y rest) in
      let largestX :=
        max_list (wx.x d + wx.width d)
                 (map (fun r => wx.x r + wx.width r) rest) in
      let largestY :=
        max_list (wx.y d + wx.height d)
                 (map (fun r => wx.y r + wx.height r) rest) in
      (largestX - smallestX, largestY - smallestY, (smallestX, smallestY))
  end.

End mouseHandler.

Module vision.

(** Modelled from the spec: [vision.constants.Context] is not among the
    sources; the data model lists the four tags used by the magnifier. *)
Inductive Context : Type :=
| FOCUS
| NAVIGATOR
| BROWSEMODE
| FOCUS_NAVIGATOR.

#[global] Instance Context_eq_dec : EqDecision Context.
Proof. solve_decision. Defined.

Definition Context_code (c : Context) : nat :=
  match c with
  | FOCUS => 0 | NAVIGATOR => 1 | BROWSEMODE => 2 | FOCUS_NAVIGATOR => 3
  end%nat.

Definition Context_of_code (n : nat) : Context :=
  match n with
  | 0 => FOCUS | 1 => NAVIGATOR | 2 => BROWSEMODE | _ => FOCUS_NAVIGATOR
  end%nat.

#[global] Instance Context_countable : Countable Context.
Proof.
  apply (inj_countable' Context_code Context_of_code).
  intros c; destruct c; reflexivity.
Defined.

End vision.

(** ** [visionEnhancementProviders/NVDAMagnifier.py] *)
Module NVDAMagnifier.

Import python vision.

Abbreviation RectLTWH := locationHelper.RectLTWH.

(** *** Highlight styles *)

Inductive DashStyle : Type := DashStyleSolid | DashStyleDash.

Record HighlightStyle : Type := MkHighlightStyle {
  color : Z * Z * Z;
  width : Z;
  style : DashStyle;
  margin : Z
}.

Definition BLUE : Z * Z * Z := (0x03, 0x36, 0xFF).
Definition PINK : Z * Z * Z := (0xFF, 0x02, 0x66).
Definition YELLOW : Z * Z * Z := (0xFF, 0xDE, 0x03).
Definition DASH_BLUE : HighlightStyle := MkHighlightStyle BLUE 5 DashStyleDash 5.
Definition SOLID_PINK : HighlightStyle := MkHighlightStyle PINK 5 DashStyleSolid 5.
Definition SOLID_BLUE : HighlightStyle := MkHighlightStyle BLUE 5 DashStyleSolid 5.
Definition SOLID_YELLOW : HighlightStyle := MkHighlightStyle YELLOW 2 DashStyleSolid 2.

Definition _ContextStyles (context : Context) : HighlightStyle :=
  match context with
  | FOCUS => DASH_BLUE
  | NAVIGATOR => SOLID_PINK
  | FOCUS_NAVIGATOR => SOLID_BLUE
  | BROWSEMODE => SOLID_YELLOW
  end.

(** *** Settings and the enabled contexts *)

Record NVDAMagnifierSettings : Type := MkSettings {
  magnifyFocus : bool;
  magnifyNavigator : bool;
  magnifyBrowseMode : bool
}.

Definition _supportedContexts : list Context := [FOCUS; NAVIGATOR; BROWSEMODE].

(** [getattr(settings, "magnify%s" % ...)]: the flag of a supported
    context. *)
Definition setting_of (settings : NVDAMagnifierSettings) (context : Context)
  : bool :=
  match context with
  | FOCUS => magnifyFocus settings
  | NAVIGATOR => magnifyNavigator settings
  | BROWSEMODE => magnifyBrowseMode settings
  | FOCUS_NAVIGATOR => false
  end.

Definition _get_enabledContexts (settings : NVDAMagnifierSettings)
  : list Context :=
  filter (fun context => setting_of settings context = true) _supportedContexts.

(** *** The provider object *)

(** The overlay window: its handle and the location last computed. *)
Record MagnifyWindow : Type := MkMagnifyWindow {
  handle : Z;
  location : option RectLTWH
}.

Record NVDAMagnifier : Type := MkNVDAMagnifier {
  _settings : NVDAMagnifierSettings;
  contextToRectMap : gmap Context (option RectLTWH);
  (** ident of the thread object, once created *)
  _magnifierThread : option Z;
  _window : option MagnifyWindow;
  (** whether GDI+ is initialised on behalf of this object *)
  gdiPlus : bool
}.

Definition enabledContexts (m : NVDAMagnifier) : list Context :=
  _get_enabledContexts (_settings m).

Definition with_map (cm : gmap Context (option RectLTWH)) (m : NVDAMagnifier)
  : NVDAMagnifier :=
  {| _settings := _settings m; contextToRectMap := cm;
     _magnifierThread := _magnifierThread m; _window := _window m;
     gdiPlus := gdiPlus m |}.

Definition with_window (w : option MagnifyWindow) (m : NVDAMagnifier)
  : NVDAMagnifier :=
  {| _settings := _settings m; contextToRectMap := contextToRectMap m;
     _magnifierThread := _magnifierThread m; _window := w;
     gdiPlus := gdiPlus m |}.

(** *** Exceptions *)

Inductive exception : Type :=
| LookupError
| NotImplementedError
| RuntimeError
| TypeError
| WinError
| OtherException.

(** The classes named by the [except] clause of [updateContextRect]. *)
Definition caught (e : exception) : bool :=
  match e with
  | LookupError | NotImplementedError | RuntimeError | TypeError => true
  | WinError | OtherException => false
  end.

(** *** The paint pass of the overlay window *)

(** One round of the loop over the enabled contexts in [_paint].  The first
    [pop] cannot fail: the test before it found [FOCUS] in the dict. *)
Definition paint_step (cm : gmap Context (option RectLTWH))
  (contextRects : list (Context * RectLTWH)) (context : Context)
  : list (Context * RectLTWH) :=
  match cm !! context with
  | Some (Some rect) =>
      if bool_decide (context = NAVIGATOR)
         && bool_decide (dict_get FOCUS contextRects = Some rect)
      then
        dict_set FOCUS_NAVIGATOR rect
          (dict_pop NAVIGATOR (dict_pop FOCUS contextRects))
      else dict_set context rect contextRects
  | _ => contextRects
  end.

(** The dict [contextRects] when the loop ends. *)
Definition paint_contextRects (m : NVDAMagnifier) : list (Context * RectLTWH) :=
  fold_left (paint_step (contextToRectMap m)) (enabledContexts m) [].

Inductive painted : Type :=
| QuitPosted
| NothingDrawn
| Outlines (drawn : list (HighlightStyle * RectLTWH)).

Section Paint.

(** Lines 192 to 201 of [_paint] clip the rectangle to the window location,
    convert it to client coordinates and apply the margin of the style, all
    through methods of [locationHelper]; [to_outline] stands for them. *)
Variable to_outline : option RectLTWH -> HighlightStyle -> RectLTWH -> RectLTWH.

(** [MagnifyWindow._paint]; [magnifier] is what the weak reference yields. *)
Definition _paint (self : MagnifyWindow) (magnifier : option NVDAMagnifier)
  : painted :=
  match magnifier with
  | None => QuitPosted
  | Some m =>
      match paint_contextRects m with
      | [] => NothingDrawn
      | contextRects =>
          Outlines
            (map (fun item =>
                    let style := _ContextStyles (fst item) in
                    (style, to_outline (location self) style (snd item)))
                 contextRects)
      end
  end.

End Paint.

(** *** Overlay bounds *)

Inductive user32_call : Type :=
| ShowWindow_HIDE (handle : Z)
| SetWindowPos_TOPMOST (handle : Z) (left top width height : Z)
| ShowWindow_SHOWNA (handle : Z).

(** [MagnifyWindow.updateLocationForDisplays]; [displays] is the list of
    display geometries and [SetWindowPos_ok] tells whether [SetWindowPos]
    reports success. *)
Definition updateLocationForDisplays (displays : list wx.Rect)
  (SetWindowPos_ok : bool) (self : MagnifyWindow)
  : outcome exception unit * (MagnifyWindow * list user32_call) :=
  let '(screenWidth, screenHeight, minPos) :=
    mouseHandler.getTotalWidthAndHeightAndMinimumPosition displays in
  let left := fst minPos in
  let top := snd minPos in
  let width := screenWidth in
  let height := screenHeight - 1 in
  let self :=
    {| handle := handle self;
       location := Some (locationHelper.MkRectLTWH left top width height) |} in
  let calls :=
    [ShowWindow_HIDE (handle self);
     SetWindowPos_TOPMOST (handle self) left top width height] in
  if negb SetWindowPos_ok then (Raises WinError, (self, calls))
  else (Returns tt, (self, calls ++ [ShowWindow_SHOWNA (handle self)])).

(** *** Context rectangles *)

(** What the call of [vision.util.getContextRect] does: it returns a
    rectangle or [None], or it raises. *)
Inductive resolution : Type :=
| Resolved (rect : option RectLTWH)
| Failed (e : exception).

Definition provider_state : Type := NVDAMagnifier * windows_utils.globals.

Section Provider.

Variable Obj : Type.
Variable getContextRect : Context -> option Obj -> resolution.
Variable isObjectInActiveTreeInterceptor : Obj -> bool.

(** [updateContextRect]; the calls of [log.debug] are left out. *)
Definition updateContextRect (context : Context) (rect : option RectLTWH)
  (obj : option Obj) (s : provider_state)
  : outcome exception unit * provider_state :=
  let '(m, g) := s in
  if negb (bool_decide (context ∈ enabledContexts m)) then (Returns tt, s)
  else
    let resolved :=
      match rect with
      | Some r => Resolved (Some r)
      | None =>
          match getContextRect context obj with
          | Resolved r => Resolved r
          | Failed e => if caught e then Resolved None else Failed e
          end
      end in
    match resolved with
    | Failed e => (Raises e, s)
    | Resolved rect =>
        let m := with_map (<[context := rect]> (contextToRectMap m)) m in
        match rect with
        | Some r =>
            (Returns tt,
             (m, windows_utils.set_pos (locationHelper.top r)
                   (locationHelper.left r) g))
        | None => (Returns tt, (m, g))
        end
    end.

Definition handleBrowseModeMove (obj : option Obj) (s : provider_state)
  : outcome exception unit * provider_state :=
  updateContextRect BROWSEMODE None None s.

Definition handleReviewMove (context : Context) (s : provider_state)
  : outcome exception unit * provider_state :=
  updateContextRect NAVIGATOR None None s.

Definition handleFocusChange (obj : Obj) (s : provider_state)
  : outcome exception unit * provider_state :=
  match updateContextRect FOCUS None (Some obj) s with
  | (Returns _, (m, g)) =>
      if negb (isObjectInActiveTreeInterceptor obj) then
        (Returns tt, (with_map (delete BROWSEMODE (contextToRectMap m)) m, g))
      else handleBrowseModeMove None (m, g)
  | stopped => stopped
  end.

End Provider.

(** *** Construction and termination *)

(** How far the thread running [_run] has got at some instant. *)
Inductive progress : Type :=
| InWindowConstructor
    (** [customWindowClass(self)] has not returned: [_window] not assigned *)
| WindowConstructorRaised
    (** it raised: the exception is logged and the thread is over *)
| InTimerConstructor (window : MagnifyWindow)
    (** [_window] assigned, [WinTimer(...)] has not returned *)
| TimerConstructorRaised (window : MagnifyWindow)
    (** [_window] assigned, then the thread ended in the handler *)
| InMessageLoop (window : MagnifyWindow)
    (** the running event is set and messages are pumped *)
| LoopEnded (window : MagnifyWindow)
    (** the loop was left and the thread is over *).

Definition event_set (p : progress) : bool :=
  match p with
  | InMessageLoop _ | LoopEnded _ => true
  | _ => false
  end.

Definition thread_is_alive (p : progress) : bool :=
  match p with
  | InWindowConstructor | InTimerConstructor _ | InMessageLoop _ => true
  | _ => false
  end.

Definition window_assigned (p : progress) : option MagnifyWindow :=
  match p with
  | InWindowConstructor | WindowConstructorRaised => None
  | InTimerConstructor w | TimerConstructorRaised w
  | InMessageLoop w | LoopEnded w => Some w
  end.

(** The object as its owner sees it while the worker is at [p]: the worker
    is the one that assigns [_window]. *)
Definition observe (p : progress) (m : NVDAMagnifier) : NVDAMagnifier :=
  with_window (window_assigned p) m.

(** [0.2] seconds, in ticks of one millisecond. *)
Definition init_timeout : nat := 200.

(** [NVDAMagnifier.__init__]; [ident] is the ident of the new thread and
    [worker n] its progress [n] ticks after it was started. *)
Definition __init__ (settings : NVDAMagnifierSettings) (ident : Z)
  (worker : nat -> progress) : outcome exception unit * NVDAMagnifier :=
  let m :=
    {| _settings := settings; contextToRectMap := ∅;
       _magnifierThread := Some ident; _window := None; gdiPlus := true |} in
  match Event_wait (fun n => event_set (worker n)) (Some init_timeout)
          init_timeout with
  | Some (waitResult, n) =>
      if negb waitResult || negb (thread_is_alive (worker n))
      then (Raises RuntimeError, observe (worker n) m)
      else (Returns tt, observe (worker n) m)
  | None => (Blocks, m)
  end.

(** [self._magnifierThread and self._window and self._window.handle] *)
Definition has_window_to_quit (m : NVDAMagnifier) : bool :=
  match _magnifierThread m, _window m with
  | Some _, Some w => negb (handle w =? 0)
  | _, _ => false
  end.

(** [NVDAMagnifier.terminate].  [post_ok] tells whether
    [PostThreadMessageW] reports success and [worker_ends] whether the
    worker thread ever ends, which is when [join()] returns.  The assignment
    to [_magnifierrThread] creates an attribute nothing reads.

    Not represented: what the worker does to the window object before it
    ends.  On the way out of its message loop [_run] calls
    [window.destroy()], a method of the window's base class whose effect on
    [handle] is not in these files; the state returned here keeps [_window]
    as it was, so it tells nothing about a later test of
    [self._window.handle]. *)
Definition terminate (post_ok worker_ends : bool) (m : NVDAMagnifier)
  : outcome exception unit * NVDAMagnifier :=
  let finish :=
    (Returns tt,
     {| _settings := _settings m; contextToRectMap := ∅;
        _magnifierThread := _magnifierThread m; _window := _window m;
        gdiPlus := false |}) in
  if has_window_to_quit m then
    if negb post_ok then (Raises WinError, m)
    else if worker_ends then finish
    else (Blocks, m)
  else finish.

(** What [terminate] leaves when it returns: an empty map and GDI+ shut
    down.  The [_window] component is carried over as it was, see the
    remark on [terminate]. *)
Definition terminated (m : NVDAMagnifier) : NVDAMagnifier :=
  {| _settings := _settings m; contextToRectMap := ∅;
     _magnifierThread := _magnifierThread m; _window := _window m;
     gdiPlus := false |}.

(** The entry of [contextRects] that comes from the browse-mode context, if
    that context is enabled and has a rectangle. *)
Definition browse_entries (m : NVDAMagnifier) : list (Context * RectLTWH) :=
  if magnifyBrowseMode (_settings m) then
    match contextToRectMap m !! BROWSEMODE with
    | Some (Some rect) => [(BROWSEMODE, rect)]
    | _ => []
    end
  else [].

(** *** Concrete situations used below *)

Definition all_enabled : NVDAMagnifierSettings :=
  {| magnifyFocus := true; magnifyNavigator := true; magnifyBrowseMode := true |}.

Definition focus_only : NVDAMagnifierSettings :=
  {| magnifyFocus := true; magnifyNavigator := false; magnifyBrowseMode := false |}.

Definition button : RectLTWH := locationHelper.MkRectLTWH 300 120 80 24.

Definition overlay : MagnifyWindow :=
  {| handle := 66052; location := Some (locationHelper.MkRectLTWH 0 0 1920 1079) |}.

(** A provider whose focus and navigator object are the same button. *)
Definition on_button : NVDAMagnifier :=
  {| _settings := all_enabled;
     contextToRectMap :=
       <[NAVIGATOR := Some button]> (<[FOCUS := Some button]> ∅);
     _magnifierThread := Some 77; _window := Some overlay; gdiPlus := true |}.

(** The same provider inside a browse-mode document whose caret is on that
    button too: all three contexts hold the one rectangle. *)
Definition all_on_button : NVDAMagnifier :=
  {| _settings := all_enabled;
     contextToRectMap :=
       <[BROWSEMODE := Some button]>
         (<[NAVIGATOR := Some button]> (<[FOCUS := Some button]> ∅));
     _magnifierThread := Some 77; _window := Some overlay; gdiPlus := true |}.

(** A provider with only the focus context enabled and an empty map. *)
Definition focus_provider : NVDAMagnifier :=
  {| _settings := focus_only; contextToRectMap := ∅;
     _magnifierThread := Some 77; _window := Some overlay; gdiPlus := true |}.

(** A resolver that finds the button for every context and object, with
    objects that are plain numbers; number 0 is the only object inside the
    active tree interceptor. *)
Definition finds_button (context : Context) (obj : option Z) : resolution :=
  Resolved (Some button).

Definition in_interceptor (obj : Z) : bool := obj =? 0.

(** A worker that builds the overlay window in 40 ticks and then fails to
    create the timer, which ends the thread. *)
Definition timer_fails (n : nat) : progress :=
  if (n <? 40)%nat then InWindowConstructor else TimerConstructorRaised overlay.

(** A worker that fails while it builds the overlay window. *)
Definition window_fails (n : nat) : progress :=
  if (n <? 40)%nat then InWindowConstructor else WindowConstructorRaised.

(** An identity stand-in for the coordinate conversions of [_paint]. *)
Definition untransformed (location : option RectLTWH) (style : HighlightStyle)
  (rect : RectLTWH) : RectLTWH := rect.

(** *** What the paint pass sees of a context *)

(** [contextToRectMap.get(context)] followed by the test [if not rect]. *)
Definition rect_of (m : NVDAMagnifier) (context : Context) : option RectLTWH :=
  match contextToRectMap m !! context with
  | Some (Some rect) => Some rect
  | _ => None
  end.

(** The rectangle of a context the loop of [_paint] gets to see: the
    context has to be enabled. *)
Definition shown (m : NVDAMagnifier) (context : Context) : option RectLTWH :=
  if setting_of (_settings m) context then rect_of m context else None.

(** *** Notifications delivered one after the other *)

Section Notifications.

Variable Obj : Type.

(** What a notification finds around it: the answers of the resolver and of
    the tree-interceptor test at that moment. *)
Record surroundings : Type := MkSurroundings {
  resolve : Context -> option Obj -> resolution;
  inside : Obj -> bool
}.

Inductive notification : Type :=
| Focus_changed (obj : Obj)
| Review_moved (context : Context)
| Browse_moved (obj : option Obj)
| Update_called (context : Context) (rect : option RectLTWH) (obj : option Obj).

Definition deliver (around : surroundings) (n : notification)
  (s : provider_state) : outcome exception unit * provider_state :=
  match n with
  | Focus_changed obj =>
      handleFocusChange Obj (resolve around) (inside around) obj s
  | Review_moved context => handleReviewMove Obj (resolve around) context s
  | Browse_moved obj => handleBrowseModeMove Obj (resolve around) obj s
  | Update_called context rect obj =>
      updateContextRect Obj (resolve around) context rect obj s
  end.

(** The state after a list of notifications; one that raises leaves the
    state it had reached and the next one goes on from there. *)
Definition deliver_all (ns : list (surroundings * notification))
  (s : provider_state) : provider_state :=
  fold_left (fun s item => snd (deliver (fst item) (snd item) s)) ns s.

End Notifications.

(** The transform a reposition sends: zoom factor 2, any offset. *)
Definition is_reposition (c : mag.call) : Prop :=
  exists x y, c = mag.set_fullscreen_transform 2 (x, y).

(** *** The settings panel *)

Inductive CheckBoxState : Type := CHK_UNCHECKED | CHK_CHECKED | CHK_UNDETERMINED.

Definition all_set (value : bool) : NVDAMagnifierSettings :=
  {| magnifyFocus := value; magnifyNavigator := value;
     magnifyBrowseMode := value |}.

Section Panel.

(** The provider control is a collaborator: [Control] is its state,
    [getProviderInstance] tells whether it yields an instance, and starting
    and terminating the provider answer and change the control. *)
Variable Control : Type.
Variable getProviderInstance : Control -> bool.
Variable startProvider : Control -> bool * Control.
Variable terminateProvider : Control -> bool * Control.

(** The panel with what it reaches: the settings storage (the provider's
    class-level settings), the master checkbox, the provider control and
    the number of [refresh()] calls made on the provider instance. *)
Record panel : Type := MkPanel {
  storage : NVDAMagnifierSettings;
  _enabledCheckbox : CheckBoxState;
  _providerControl : Control;
  refreshed : nat
}.

Definition panel_state : Type := panel * windows_utils.globals.

Definition with_storage (settings : NVDAMagnifierSettings) (p : panel) : panel :=
  {| storage := settings; _enabledCheckbox := _enabledCheckbox p;
     _providerControl := _providerControl p; refreshed := refreshed p |}.

Definition with_checkbox (c : CheckBoxState) (p : panel) : panel :=
  {| storage := storage p; _enabledCheckbox := c;
     _providerControl := _providerControl p; refreshed := refreshed p |}.

Definition with_control (c : Control) (p : panel) : panel :=
  {| storage := storage p; _enabledCheckbox := _enabledCheckbox p;
     _providerControl := c; refreshed := refreshed p |}.

(** [any(...)] and [all(...)] over the three settings. *)
Definition any_setting (settings : NVDAMagnifierSettings) : bool :=
  magnifyBrowseMode settings || magnifyFocus settings || magnifyNavigator settings.

Definition all_settings (settings : NVDAMagnifierSettings) : bool :=
  magnifyBrowseMode settings && magnifyFocus settings && magnifyNavigator settings.

(** [_ensureEnableState] *)
Definition _ensureEnableState (shouldBeEnabled : bool) (s : panel_state)
  : bool * panel_state :=
  let '(p, g) := s in
  let currentlyEnabled := getProviderInstance (_providerControl p) in
  if shouldBeEnabled && negb currentlyEnabled then
    let g := windows_utils.set_level (windows_utils.run_mag g) in
    let '(ok, c) := startProvider (_providerControl p) in
    (ok, (with_control c p, g))
  else if negb shouldBeEnabled && currentlyEnabled then
    let '(ok, c) := terminateProvider (_providerControl p) in
    (ok, (with_control c p, g))
  else (true, s).

(** [_updateEnabledState] and [_onEnableFailure] call each other; [fuel]
    bounds the depth of the calls and [None] means it ran out.
    [updateDriverSettings] redraws controls and changes nothing here. *)
Fixpoint _updateEnabledState (fuel : nat) (s : panel_state)
  : option panel_state :=
  match fuel with
  | O => None
  | S fuel' =>
      let '(p, g) := s in
      let isAnyEnabled := any_setting (storage p) in
      let p :=
        if all_settings (storage p) then with_checkbox CHK_CHECKED p
        else if isAnyEnabled then with_checkbox CHK_UNDETERMINED p
        else with_checkbox CHK_UNCHECKED p in
      let '(ok, s) := _ensureEnableState isAnyEnabled (p, g) in
      if negb ok && isAnyEnabled then
        (* _onEnableFailure *)
        let '(p, g) := s in
        _updateEnabledState fuel' (with_storage (all_set false) p, g)
      else Some s
  end.

Definition _onEnableFailure (fuel : nat) (s : panel_state)
  : option panel_state :=
  let '(p, g) := s in
  _updateEnabledState fuel (with_storage (all_set false) p, g).

(** [_onCheckEvent]; [from_master] tells whether the event comes from the
    master checkbox and [checked] is [evt.IsChecked()]. *)
Definition _onCheckEvent (fuel : nat) (from_master checked : bool)
  (s : panel_state) : option panel_state :=
  let after :=
    if from_master then
      let '(p, g) := s in
      let '(ok, s) := _ensureEnableState checked
                        (with_storage (all_set checked) p, g) in
      if negb ok && checked then _onEnableFailure fuel s else Some s
    else _updateEnabledState fuel s in
  match after with
  | Some (p, g) =>
      if getProviderInstance (_providerControl p) then
        Some ({| storage := storage p; _enabledCheckbox := _enabledCheckbox p;
                 _providerControl := _providerControl p;
                 refreshed := S (refreshed p) |}, g)
      else Some (p, g)
  | None => None
  end.

End Panel.

Definition link : RectLTWH := locationHelper.MkRectLTWH 40 500 120 18.

(** A provider whose focus is on the button while the navigator object is a
    link elsewhere. *)
Definition apart : NVDAMagnifier :=
  {| _settings := all_enabled;
     contextToRectMap :=
       <[NAVIGATOR := Some link]> (<[FOCUS := Some button]> ∅);
     _magnifierThread := Some 77; _window := Some overlay; gdiPlus := true |}.

(** A resolver that fails with [LookupError] for every context. *)
Definition finds_nothing (context : Context) (obj : option Z) : resolution :=
  Failed LookupError.

(** What notifications can have done to a provider that started as [s0]:
    the settings, the thread and the window are the same, every key of the
    map was there before or belongs to an enabled context, and the
    magnifier globals differ only by repositions appended to the engine
    trace. *)
Definition only_updated (s0 s : provider_state) : Prop :=
  _settings (fst s) = _settings (fst s0)
  /\ _magnifierThread (fst s) = _magnifierThread (fst s0)
  /\ _window (fst s) = _window (fst s0)
  /\ gdiPlus (fst s) = gdiPlus (fst s0)
  /\ (forall context,
        contextToRectMap (fst s) !! context <> None ->
        contextToRectMap (fst s0) !! context <> None
        \/ context ∈ enabledContexts (fst s0))
  /\ windows_utils.mag_level (snd s) = windows_utils.mag_level (snd s0)
  /\ windows_utils.curr_color (snd s) = windows_utils.curr_color (snd s0)
  /\ windows_utils.mag_on (snd s) = windows_utils.mag_on (snd s0)
  /\ exists repositions,
       windows_utils.engine (snd s) = windows_utils.engine (snd s0) ++ repositions
       /\ Forall is_reposition repositions.

(** A provider as [__init__] leaves it when the worker has started. *)
Definition fresh_provider (settings : NVDAMagnifierSettings) : NVDAMagnifier :=
  {| _settings := settings; contextToRectMap := ∅;
     _magnifierThread := Some 77; _window := Some overlay; gdiPlus := true |}.

(** A worker that reaches its message loop after 60 ticks. *)
Definition starts_in_time (n : nat) : progress :=
  if (n <? 60)%nat then InWindowConstructor else InMessageLoop overlay.

(** The state of a checkbox that shows three settings at once. *)
Definition summary (settings : NVDAMagnifierSettings) : CheckBoxState :=
  if all_settings settings then CHK_CHECKED
  else if any_setting settings then CHK_UNDETERMINED
  else CHK_UNCHECKED.

(** A provider control that holds no instance and cannot start one: its
    state tells whether an instance exists. *)
Definition never_starts (running : bool) : bool * bool := (false, false).
Definition stops (running : bool) : bool * bool := (true, false).
Definition has_instance (running : bool) : bool := running.

(** A panel over that control with only the focus setting on. *)
Definition focus_panel : panel bool :=
  {| storage := focus_only; _enabledCheckbox := CHK_UNCHECKED;
     _providerControl := false; refreshed := 0 |}.

End NVDAMagnifier.

(** * Properties of the runtime notions *)
Module python_proofs.

Import python.

Local Open Scope nat_scope.

(** What an answer of the wait, or its absence, says about the flag. *)
Lemma Event_wait_from_spec (flag : nat -> bool) (timeout : option nat)
  (fuel now : nat) :
  match Event_wait_from flag timeout now fuel with
  | Some (b, n) =>
      now <= n <= now + fuel
      /\ flag n = b
      /\ (b = false -> timed_out timeout n = true)
      /\ (forall k, now <= k < n ->
                    flag k = false /\ timed_out timeout k = false)
  | None =>
      forall k, now <= k <= now + fuel ->
                flag k = false /\ timed_out timeout k = false
  end.
Proof.
  revert now. induction fuel as [| fuel IH]; intros now; simpl.
  - destruct (flag now) eqn:Hflag.
    + repeat split; intros; try lia; try discriminate; auto.
    + destruct (timed_out timeout now) eqn:Hout.
      * repeat split; intros; try lia; auto.
      * intros k Hk. assert (k = now) by lia. subst k. auto.
  - destruct (flag now) eqn:Hflag.
    + repeat split; intros; try lia; try discriminate; auto.
    + destruct (timed_out timeout now) eqn:Hout.
      * repeat split; intros; try lia; auto.
      * specialize (IH (S now)).
        destruct (Event_wait_from flag timeout (S now) fuel) as [[b n] |].
        -- destruct IH as (Hrange & Hn & Hb & Hbefore).
           split; [lia |]. split; [exact Hn |]. split; [exact Hb |].
           intros k Hk.
           destruct (Nat.eq_dec k now) as [-> | Hne]; [auto |].
           apply Hbefore. lia.
        -- intros k Hk.
           destruct (Nat.eq_dec k now) as [-> | Hne]; [auto |].
           apply IH. lia.
Qed.

(** A wait with a timeout answers by the time the timeout has elapsed. *)
Lemma Event_wait_timeout_answers (flag : nat -> bool) (t fuel : nat) :
  t <= fuel ->
  exists b n, Event_wait flag (Some t) fuel = Some (b, n) /\ n <= t.
Proof.
  intros Hfuel. unfold Event_wait.
  pose proof (Event_wait_from_spec flag (Some t) fuel 0) as Hspec.
  destruct (Event_wait_from flag (Some t) 0 fuel) as [[b n] |].
  - exists b, n. split; [reflexivity |].
    destruct Hspec as (_ & _ & _ & Hbefore).
    destruct (le_lt_dec n t) as [Hle | Hlt]; [exact Hle |].
    destruct (Hbefore t) as [_ Hout]; [lia |].
    simpl in Hout. apply Nat.leb_gt in Hout. lia.
  - destruct (Hspec t) as [_ Hout]; [lia |].
    simpl in Hout. apply Nat.leb_gt in Hout. lia.
Qed.

(** A wait without timeout never answers [false]. *)
Lemma Event_wait_forever_true (flag : nat -> bool) (fuel : nat) (b : bool)
  (n : nat) :
  Event_wait flag None fuel = Some (b, n) -> b = true.
Proof.
  unfold Event_wait. intros Hwait.
  pose proof (Event_wait_from_spec flag None fuel 0) as Hspec.
  rewrite Hwait in Hspec. destruct Hspec as (_ & _ & Hb & _).
  destruct b; [reflexivity |]. specialize (Hb eq_refl). discriminate.
Qed.

End python_proofs.

(** * Properties of [windows_utils.py] *)
Module windows_utils_proofs.

Import python windows_utils.

(** ** Zoom level *)

Lemma last_transform_emit (l : Z) (o : Z * Z) (g : globals) :
  last_transform (emit (mag.set_fullscreen_transform l o) g) = Some (l, o).
Proof.
  unfold last_transform, emit; simpl.
  rewrite rev_app_distr. reflexivity.
Qed.

(** Every call of [mag_decrease] applies a transform whose level is at least
    one as soon as the tracked level is at least one. *)
Lemma mag_decrease_level_positive (g : globals) :
  1 <= mag_level g ->
  1 <= mag_level (mag_decrease g) /\
  exists l, last_transform (mag_decrease g) = Some (l, (2, 2)) /\ 1 <= l.
Proof.
  intros Hlevel. unfold mag_decrease.
  destruct (Z.leb_spec (mag_level g) 1) as [Hle | Hgt].
  - split; [exact Hlevel |].
    exists 1. rewrite last_transform_emit. split; [reflexivity | lia].
  - cbn zeta. split; [simpl; lia |].
    exists (mag_level g - 1). rewrite last_transform_emit.
    split; [reflexivity | lia].
Qed.

(** C8: when the tracked magnification level is 1, [mag_decrease] leaves it
    at 1, and the one transform it applies to the engine has level 1 (with
    the fixed offset [2, 2]); the level never becomes zero or negative. *)
Theorem mag_decrease_floor (g : globals) :
  mag_level g = 1 ->
  mag_level (mag_decrease g) = 1
  /\ engine (mag_decrease g) = engine g ++ [mag.set_fullscreen_transform 1 (2, 2)]
  /\ last_transform (mag_decrease g) = Some (1, (2, 2))
  /\ mag_on (mag_decrease g) = mag_on g
  /\ curr_color (mag_decrease g) = curr_color g.
Proof.
  intros Hone.
  assert (Hstep : mag_decrease g = emit (mag.set_fullscreen_transform 1 (2, 2)) g).
  { unfold mag_decrease. rewrite Hone. reflexivity. }
  rewrite Hstep, last_transform_emit. simpl. auto.
Qed.

Lemma mag_decrease_floor_witness :
  mag_level (mag_decrease module_init) = 1
  /\ engine (mag_decrease module_init)
     = engine module_init ++ [mag.set_fullscreen_transform 1 (2, 2)]
  /\ last_transform (mag_decrease module_init) = Some (1, (2, 2))
  /\ mag_on (mag_decrease module_init) = mag_on module_init
  /\ curr_color (mag_decrease module_init) = curr_color module_init.
Proof. apply (mag_decrease_floor module_init). reflexivity. Defined.

Example mag_decrease_from_three :
  mag_level (mag_decrease (mag_increase (mag_increase module_init))) = 2.
Proof. reflexivity. Qed.

(** ** Cross-thread execution *)

Section Execute.

Context {Args Result : Type}.

Lemma on_owning_thread_true (w : Window Args Result) (current : Z) :
  on_owning_thread w current = true <-> _thread_id w = Some current.
Proof.
  unfold on_owning_thread. destruct (_thread_id w) as [t |].
  - rewrite Z.eqb_eq. split; congruence.
  - split; discriminate.
Qed.

Lemma with_queues_id (w : Window Args Result) :
  with_queues (_command w) (_result w) w = w.
Proof. destruct w; reflexivity. Qed.

(** C5: run from the window's owning thread, [_execute] applies the command
    at once and returns its result, the window object (both queues and their
    call counters) is unchanged and no message is posted; from any other
    thread it puts the command on the command queue (the pair of the command
    and its arguments is the newest item afterwards, the count of puts is one
    higher and nothing was taken), posts [WM_USER] and waits on the result
    queue: on an empty result queue the caller blocks and that queue stays
    as it is, otherwise the caller takes its oldest item. *)
Theorem execute_thread_affinity (command : Command Args Result) (args : Args)
  (current : Z) (w : Window Args Result) (os : OS) :
  (_thread_id w = Some current ->
   _execute current command args (w, os)
   = (Returns (fst (command args os)), (w, snd (command args os))))
  /\
  (_thread_id w <> Some current ->
   exists o w',
     _execute current command args (w, os)
     = (o, (w', os ++ [PostMessage (hwnd w) WM_USER]))
     /\ _command w' = Queue_put (command, args) (_command w)
     /\ items (_command w') = items (_command w) ++ [(command, args)]
     /\ last (items (_command w')) = Some (command, args)
     /\ length (items (_command w')) = S (length (items (_command w)))
     /\ puts (_command w') = S (puts (_command w))
     /\ gets (_command w') = gets (_command w)
     /\ match Queue_get (_result w) with
        | None => o = Blocks /\ _result w' = _result w
        | Some (r, q) => o = Returns r /\ _result w' = q
        end
     /\ match items (_result w) with
        | [] => o = Blocks /\ _result w' = _result w
        | r :: rest =>
            o = Returns r /\ items (_result w') = rest
            /\ puts (_result w') = puts (_result w)
            /\ gets (_result w') = S (gets (_result w))
        end).
Proof.
  split; intros Hthread.
  - apply on_owning_thread_true in Hthread.
    unfold _execute. rewrite Hthread.
    destruct (command args os) as [r os']. reflexivity.
  - assert (Hother : on_owning_thread w current = false).
    { destruct (on_owning_thread w current) eqn:E; [| reflexivity].
      apply on_owning_thread_true in E. contradiction. }
    assert (Hlast : forall (l : list (Command Args Result * Args)),
              last (l ++ [(command, args)]) = Some (command, args)).
    { intros l. apply last_snoc. }
    assert (Hlen : forall (l : list (Command Args Result * Args)),
              length (l ++ [(command, args)]) = S (length l)).
    { intros l. rewrite length_app. cbn [length]. lia. }
    unfold _execute. rewrite Hother. cbn zeta.
    cbn [with_queues _command _result].
    unfold Queue_get at 1.
    cbn [with_queues _command _result].
    unfold Queue_get.
    destruct (items (_result w)) as [| r rest] eqn:Hitems.
    + eexists; eexists. split; [reflexivity |].
      cbn [with_queues _command _result Queue_put items puts gets].
      rewrite Hlast, Hlen. repeat split; reflexivity.
    + eexists; eexists. split; [reflexivity |].
      cbn [with_queues _command _result Queue_put items puts gets].
      rewrite Hlast, Hlen. repeat split; reflexivity.
Qed.

(** Once the window's thread has served [WM_USER], the waiting caller gets
    the value the command returned, and both queues are empty again. *)
Lemma execute_round_trip (command : Command Args Result) (args : Args)
  (current : Z) (w : Window Args Result) (os : OS) :
  _thread_id w <> Some current ->
  items (_command w) = [] -> items (_result w) = [] ->
  let waiting := snd (_execute current command args (w, os)) in
  let served := snd (_on_command_get waiting) in
  fst (_execute current command args (w, os)) = Blocks
  /\ fst (_on_command_get waiting) = Returns tt
  /\ fst (_execute_resume served)
     = Returns (fst (command args (os ++ [PostMessage (hwnd w) WM_USER])))
  /\ items (_command (fst (snd (_execute_resume served)))) = []
  /\ items (_result (fst (snd (_execute_resume served)))) = [].
Proof.
  intros Hthread Hc Hr.
  assert (Hother : on_owning_thread w current = false).
  { destruct (on_owning_thread w current) eqn:E; [| reflexivity].
    apply on_owning_thread_true in E. contradiction. }
  assert (Hexec : _execute current command args (w, os)
                  = (Blocks,
                     (with_queues (Queue_put (command, args) (_command w))
                        (_result w) w,
                      os ++ [PostMessage (hwnd w) WM_USER]))).
  { unfold _execute. rewrite Hother. cbn zeta. simpl.
    unfold Queue_get. rewrite Hr. reflexivity. }
  rewrite Hexec. cbn zeta. cbn [fst snd].
  unfold _on_command_get, Queue_get, Queue_put. simpl. rewrite Hc. simpl.
  destruct (command args (os ++ [PostMessage (hwnd w) WM_USER])) as [r os'].
  simpl. unfold Queue_get. simpl. rewrite Hr. simpl. auto.
Qed.

End Execute.

Lemma execute_thread_affinity_witness :
  _execute 7 successor 41 (owned_by_7, []) = (Returns 42, (owned_by_7, []))
  /\ exists w',
       _execute 8 successor 41 (owned_by_7, [])
       = (Blocks, (w', [PostMessage (Some 4242) WM_USER]))
       /\ items (_command w') = [(successor, 41)]
       /\ puts (_command w') = 1%nat
       /\ gets (_command w') = 0%nat
       /\ _result w' = _result owned_by_7.
Proof.
  split.
  - exact (proj1 (execute_thread_affinity successor 41 7 owned_by_7 []) eq_refl).
  - assert (Hother : _thread_id owned_by_7 <> Some 8) by discriminate.
    destruct (proj2 (execute_thread_affinity successor 41 8 owned_by_7 []) Hother)
      as (o & w' & Heq & _ & Hitems & _ & _ & Hputs & Hgets & _ & Hres).
    cbn in Hres. destruct Hres as [-> Hresult].
    exists w'. repeat split; assumption.
Defined.

(** ** Starting the window thread *)

Section Run.

Context {Args Result : Type}.

Local Open Scope nat_scope.

Implicit Types (wk : worker) (s : Window Args Result * OS).

(** The three ways a call of [run] can stand after [fuel] ticks. *)
Lemma run_spec wk s (fuel : nat) :
  match fst (run wk s fuel) with
  | Returns _ =>
      exists n, n <= fuel
                /\ is_alive (fst (state_at wk s n)) = true
                /\ (forall k, k < n -> is_alive (fst (state_at wk s k)) = false)
                /\ snd (run wk s fuel) = state_at wk s n
  | Raises _ => False
  | Blocks => forall k, k <= fuel -> is_alive (fst (state_at wk s k)) = false
  end.
Proof.
  unfold run, wait_window_start, Event_wait.
  pose proof (python_proofs.Event_wait_from_spec
                (fun n => is_alive (fst (state_at wk s n))) None fuel 0) as Hspec.
  destruct (Event_wait_from _ None 0 fuel) as [[b n] |]; simpl.
  - destruct Hspec as (Hrange & Hflag & Hfalse & Hbefore).
    exists n. split; [lia |].
    destruct b.
    + split; [exact Hflag |]. split; [| reflexivity].
      intros k Hk. apply Hbefore. lia.
    + specialize (Hfalse eq_refl). discriminate.
  - intros k Hk. apply Hspec. lia.
Qed.

Lemma state_at_created wk s (t n : nat) (rd : creation_reading) :
  creation wk = Some (t, rd) -> is_alive (fst s) = false ->
  is_alive (fst (state_at wk s n)) = (t <=? n).
Proof.
  intros Hcreation Hdead. unfold state_at. rewrite Hcreation.
  destruct (t <=? n); [| destruct s; exact Hdead].
  destruct s as [w os]. unfold create_window, is_alive in *. simpl in *.
  rewrite Hdead. reflexivity.
Qed.

(** C2, as the code has it: [run] waits for the started event without any
    timeout.  It never raises; it returns exactly when the event is set
    within the ticks observed, and is still blocked exactly when the event
    stayed clear.  A worker that completes [create_window] at tick [t] lets
    [run] return at that tick with the created window. *)
Theorem run_waits_without_timeout wk s (fuel : nat) :
  (forall e, fst (run wk s fuel) <> Raises e)
  /\ (fst (run wk s fuel) = Returns tt
      <-> exists n, n <= fuel /\ is_alive (fst (state_at wk s n)) = true)
  /\ (fst (run wk s fuel) = Blocks
      <-> forall n, n <= fuel -> is_alive (fst (state_at wk s n)) = false)
  /\ (forall t rd,
        creation wk = Some (t, rd) -> is_alive (fst s) = false -> t <= fuel ->
        run wk s fuel = (Returns tt, state_at wk s t)
        /\ is_alive (fst (state_at wk s t)) = true).
Proof.
  pose proof (run_spec wk s fuel) as Hspec.
  split; [| split; [| split]].
  - intros e He. rewrite He in Hspec. exact Hspec.
  - split.
    + intros Hret. rewrite Hret in Hspec.
      destruct Hspec as (n & Hn & Halive & _). eauto.
    + intros (n & Hn & Halive).
      destruct (fst (run wk s fuel)) as [[] | e |] eqn:Hrun;
        [reflexivity | contradiction |].
      rewrite (Hspec n Hn) in Halive. discriminate.
  - split.
    + intros Hblocks. rewrite Hblocks in Hspec. exact Hspec.
    + intros Hclear.
      destruct (fst (run wk s fuel)) as [[] | e |] eqn:Hrun;
        [| contradiction | reflexivity].
      destruct Hspec as (n & Hn & Halive & _).
      rewrite (Hclear n Hn) in Halive. discriminate.
  - intros t rd Hcreation Hdead Ht.
    assert (Hat : forall n, is_alive (fst (state_at wk s n)) = (t <=? n))
      by (intros n; eapply state_at_created; eauto).
    split; [| rewrite Hat; apply Nat.leb_refl].
    destruct (run wk s fuel) as [o s'] eqn:Hrun. simpl in Hspec.
    destruct o as [[] | e |]; [| contradiction |].
    + destruct Hspec as (n & Hn & Halive & Hbefore & Hstate).
      rewrite Hat in Halive. apply Nat.leb_le in Halive.
      destruct (Nat.eq_dec n t) as [-> | Hne]; [congruence |].
      specialize (Hbefore t ltac:(lia)). rewrite Hat, Nat.leb_refl in Hbefore.
      discriminate.
    + specialize (Hspec t Ht). rewrite Hat, Nat.leb_refl in Hspec. discriminate.
Qed.

End Run.

Lemma run_waits_without_timeout_witness :
  run prompt_worker initial 200%nat
  = (Returns tt, state_at prompt_worker initial 30%nat)
  /\ is_alive (fst (state_at prompt_worker initial 30%nat)) = true.
Proof.
  apply (proj2 (proj2 (proj2
           (run_waits_without_timeout prompt_worker initial 200%nat)))
           30%nat desktop).
  - reflexivity.
  - reflexivity.
  - apply Nat.leb_le. reflexivity.
Defined.

(** C2 as stated fails: with a worker that never sets the started event
    there is no number of ticks after which [run] has returned or raised. *)
Lemma run_stuck_worker_never_finishes :
  ~ exists fuel : nat, fst (run stuck_worker initial fuel) <> Blocks.
Proof.
  intros [fuel Hfinished]. apply Hfinished.
  pose proof (run_spec stuck_worker initial fuel) as Hspec.
  destruct (fst (run stuck_worker initial fuel)) as [[] | e |];
    [| contradiction | reflexivity].
  destruct Hspec as (n & _ & Halive & _). discriminate.
Qed.

(** ** The source rectangle of the magnifier host *)

Lemma execute_keeps_geometry {Args Result : Type} (current : Z)
  (command : Command Args Result) (args : Args) (w : Window Args Result)
  (os : OS) :
  let w' := fst (snd (_execute current command args (w, os))) in
  registered w' = registered w
  /\ _window_started_event w' = _window_started_event w
  /\ hwnd w' = hwnd w
  /\ _fullscreen_rectangle w' = _fullscreen_rectangle w
  /\ _fullscreen_mode w' = _fullscreen_mode w
  /\ position w' = position w
  /\ size w' = size w
  /\ source_raw w' = source_raw w.
Proof.
  unfold _execute. destruct (on_owning_thread w current).
  - destruct (command args os). simpl. repeat split.
  - cbn zeta. destruct (Queue_get _) as [[r q] |]; simpl; repeat split.
Qed.

Lemma toggle_keeps_geometry (current : Z) (value : bool) (max_x max_y : Z)
  (w : MagnifierWindow) (os : OS) :
  let w' := fst (snd (set_fullscreen_mode current value max_x max_y (w, os))) in
  registered w' = registered w
  /\ _window_started_event w' = _window_started_event w
  /\ hwnd w' = hwnd w
  /\ (_fullscreen_rectangle w' = _fullscreen_rectangle w
      \/ _fullscreen_rectangle w' = get_fullscreen_size max_x max_y)
  /\ _fullscreen_mode w' = value
  /\ position w' = position w
  /\ size w' = size w
  /\ source_raw w' = source_raw w.
Proof.
  unfold set_fullscreen_mode. cbv zeta.
  destruct (is_alive (with_fullscreen value (_fullscreen_rectangle w) w));
    [| simpl; repeat split; auto].
  destruct value; cbv beta iota.
  - match goal with
    | |- context [_execute ?c ?f ?a (?w1, ?o)] =>
        destruct (execute_keeps_geometry c f a w1 o)
          as (E1 & E2 & E3 & E4 & E5 & E6 & E7 & E8)
    end.
    cbv zeta in *. rewrite E1, E2, E3, E4, E5, E6, E7, E8. simpl.
    repeat split; auto.
  - match goal with
    | |- context [_execute ?c ?f ?a (?w1, ?o)] =>
        destruct (execute_keeps_geometry c f a w1 o)
          as (E1 & E2 & E3 & E4 & E5 & E6 & E7 & E8)
    end.
    cbv zeta in *. rewrite E1, E2, E3, E4, E5, E6, E7, E8. simpl.
    repeat split; auto.
Qed.










(** ** Sequences of engine controls *)

Lemma mag_setColor_result (g : globals) :
  exists effect,
    nth_error colors (Z.to_nat ((curr_color g + 1) mod 5)) = Some effect
    /\ mag_setColor g
       = Some {| mag_on := mag_on g; curr_color := (curr_color g + 1) mod 5;
                 mag_level := mag_level g;
                 engine := engine g ++ [mag.set_fullscreen_color_effect effect] |}.
Proof.
  unfold mag_setColor, py_index.
  pose proof (Z.mod_pos_bound (curr_color g + 1) 5 ltac:(lia)) as Hrange.
  set (c := (curr_color g + 1) mod 5) in *.
  destruct (Z.leb_spec 0 c) as [_ | Hneg]; [| lia].
  assert (Hcases : c = 0 \/ c = 1 \/ c = 2 \/ c = 3 \/ c = 4) by lia.
  destruct Hcases as [-> | [-> | [-> | [-> | ->]]]];
    eexists; split; reflexivity.
Qed.

Lemma setColor_times_index (n : nat) (g : globals) :
  0 <= curr_color g < 5 ->
  exists g',
    setColor_times n g = Some g'
    /\ curr_color g' = (curr_color g + Z.of_nat n) mod 5
    /\ mag_level g' = mag_level g
    /\ mag_on g' = mag_on g
    /\ length (engine g') = (length (engine g) + n)%nat.
Proof.
  revert g. induction n as [| n IH]; intros g Hrange.
  - exists g. simpl. rewrite Z.add_0_r, Z.mod_small by lia.
    repeat split; auto.
  - destruct (mag_setColor_result g) as (effect & _ & Hcall).
    cbn [setColor_times]. rewrite Hcall.
    match goal with |- context [setColor_times n ?g1] => set (g1' := g1) end.
    destruct (IH g1') as (g' & Hrun & Hindex & Hlevel & Hon & Hlength).
    { subst g1'. simpl. apply Z.mod_pos_bound. lia. }
    exists g'. split; [exact Hrun |].
    subst g1'. simpl in *. rewrite Hindex, Hlevel, Hon, Hlength.
    rewrite length_app. simpl.
    repeat split; auto; try lia.
    rewrite Zplus_mod_idemp_l. f_equal. lia.
Qed.

(** X1: [mag_setColor] never raises, and the colour filter cycles with
    period exactly five: from an index in range, five calls bring the index
    back, fewer calls (one to four) end on a different index, and the zoom
    level is left alone. *)
Theorem mag_setColor_period_five (g : globals) :
  0 <= curr_color g < 5 ->
  (exists g5, setColor_times 5 g = Some g5
              /\ curr_color g5 = curr_color g
              /\ mag_level g5 = mag_level g
              /\ length (engine g5) = (length (engine g) + 5)%nat)
  /\ forall k, (0 < k < 5)%nat ->
       exists gk, setColor_times k g = Some gk /\ curr_color gk <> curr_color g.
Proof.
  intros Hrange. split.
  - destruct (setColor_times_index 5 g Hrange)
      as (g5 & Hrun & Hindex & Hlevel & _ & Hlength).
    exists g5. repeat split; auto.
    rewrite Hindex. change (Z.of_nat 5) with (1 * 5).
    rewrite Z.mod_add, Z.mod_small by lia. reflexivity.
  - intros k Hk.
    destruct (setColor_times_index k g Hrange) as (gk & Hrun & Hindex & _).
    exists gk. split; [exact Hrun |]. rewrite Hindex.
    intros Hsame.
    assert (Hcases : (k = 1 \/ k = 2 \/ k = 3 \/ k = 4)%nat) by lia.
    assert (Hc : curr_color g = 0 \/ curr_color g = 1 \/ curr_color g = 2
                 \/ curr_color g = 3 \/ curr_color g = 4) by lia.
    destruct Hcases as [-> | [-> | [-> | ->]]];
      destruct Hc as [Hc | [Hc | [Hc | [Hc | Hc]]]];
      rewrite Hc in Hsame; vm_compute in Hsame; discriminate.
Qed.

Lemma mag_setColor_period_five_witness :
  (exists g5, setColor_times 5 module_init = Some g5
              /\ curr_color g5 = curr_color module_init
              /\ mag_level g5 = mag_level module_init
              /\ length (engine g5) = (length (engine module_init) + 5)%nat)
  /\ forall k, (0 < k < 5)%nat ->
       exists gk, setColor_times k module_init = Some gk
                  /\ curr_color gk <> curr_color module_init.
Proof. apply (mag_setColor_period_five module_init). simpl. lia. Defined.

Lemma emit_sane (c : mag.call) (g : globals) :
  engine_sane g -> (forall l, transform_level c = Some l -> 1 <= l) ->
  engine_sane (emit c g).
Proof.
  intros (Hlevel & Hcolor & Hcalls) Hc. unfold engine_sane, emit. simpl.
  repeat split; try lia.
  apply Forall_app. split; [exact Hcalls |]. constructor; [exact Hc | constructor].
Qed.

Lemma perform_sane (c : control) (g : globals) :
  engine_sane g -> exists g', perform c g = Some g' /\ engine_sane g'.
Proof.
  intros Hsane. pose proof Hsane as (Hlevel & Hcolor & Hcalls).
  destruct c; simpl.
  - eexists. split; [reflexivity |].
    unfold run_mag. cbn zeta.
    destruct (emit_sane mag.initialize g Hsane) as (H1 & H2 & H3);
      [intros l Hl; discriminate |].
    repeat split; auto; simpl in *; lia.
  - eexists. split; [reflexivity |].
    unfold exit_mag. cbn zeta.
    destruct (emit_sane mag.finalize g Hsane) as (H1 & H2 & H3);
      [intros l Hl; discriminate |].
    repeat split; auto; simpl in *; lia.
  - eexists. split; [reflexivity |].
    apply emit_sane; [exact Hsane |]. intros l [= <-]. lia.
  - eexists. split; [reflexivity |].
    apply emit_sane; [exact Hsane |]. intros l [= <-]. lia.
  - eexists. split; [reflexivity |].
    unfold mag_increase. cbn zeta. apply emit_sane.
    + unfold engine_sane, with_level. simpl. repeat split; auto; lia.
    + intros l [= <-]. simpl. lia.
  - eexists. split; [reflexivity |].
    unfold mag_decrease.
    destruct (Z.leb_spec (mag_level g) 1) as [Hle | Hgt].
    + apply emit_sane; [exact Hsane |]. intros l [= <-]. lia.
    + cbn zeta. apply emit_sane.
      * unfold engine_sane, with_level. simpl. repeat split; auto; lia.
      * intros l [= <-]. simpl. lia.
  - destruct (mag_setColor_result g) as (effect & _ & Hcall).
    rewrite Hcall. eexists. split; [reflexivity |].
    unfold engine_sane. simpl.
    pose proof (Z.mod_pos_bound (curr_color g + 1) 5 ltac:(lia)).
    repeat split; try lia.
    apply Forall_app. split; [exact Hcalls |].
    constructor; [intros l Hl; discriminate | constructor].
  - eexists. split; [reflexivity |].
    apply emit_sane; [exact Hsane |]. intros l [= <-]. lia.
Qed.

Lemma perform_all_sane (cs : list control) (g : globals) :
  engine_sane g -> exists g', perform_all cs g = Some g' /\ engine_sane g'.
Proof.
  revert g. induction cs as [| c cs IH]; intros g Hsane; simpl.
  - eauto.
  - destruct (perform_sane c g Hsane) as (g1 & -> & Hsane1).
    apply IH, Hsane1.
Qed.

Lemma module_init_sane : engine_sane module_init.
Proof.
  unfold engine_sane, module_init. simpl. repeat split; try lia. constructor.
Qed.

(** X2: whatever controls are called after the module is loaded, and in
    whatever order, none raises, the tracked magnification level stays at
    least one, the colour index stays a valid index of [colors], and every
    transform the engine has received has a level of at least one. *)
Theorem controls_keep_engine_sane (cs : list control) :
  exists g,
    perform_all cs module_init = Some g
    /\ 1 <= mag_level g
    /\ 0 <= curr_color g < 5
    /\ Forall (fun c => forall l, transform_level c = Some l -> 1 <= l)
         (engine g).
Proof.
  destruct (perform_all_sane cs module_init module_init_sane)
    as (g & Hrun & Hsane).
  exists g. split; [exact Hrun | exact Hsane].
Qed.

(** X3: from a level of at least one, [mag_decrease] undoes [mag_increase];
    [mag_increase] undoes [mag_decrease] only above the floor: at level one
    the pair ends at level two. *)
Theorem increase_decrease_round_trip (g : globals) :
  1 <= mag_level g ->
  mag_level (mag_decrease (mag_increase g)) = mag_level g
  /\ last_transform (mag_decrease (mag_increase g)) = Some (mag_level g, (2, 2))
  /\ (1 < mag_level g ->
      mag_level (mag_increase (mag_decrease g)) = mag_level g)
  /\ (mag_level g = 1 -> mag_level (mag_increase (mag_decrease g)) = 2).
Proof.
  intros Hlevel.
  assert (Hup : mag_level (mag_increase g) = mag_level g + 1) by reflexivity.
  assert (Hdown : mag_decrease (mag_increase g)
                  = emit (mag.set_fullscreen_transform (mag_level g) (2, 2))
                      (with_level (mag_level g) (mag_increase g))).
  { unfold mag_decrease. rewrite Hup.
    destruct (Z.leb_spec (mag_level g + 1) 1) as [Hle | Hgt]; [lia |].
    cbn zeta. replace (mag_level g + 1 - 1) with (mag_level g) by lia.
    reflexivity. }
  split; [rewrite Hdown; reflexivity |].
  split; [rewrite Hdown; apply last_transform_emit |].
  split.
  - intros Habove. unfold mag_decrease.
    destruct (Z.leb_spec (mag_level g) 1) as [Hle | Hgt]; [lia |].
    simpl. lia.
  - intros Hone. unfold mag_decrease. rewrite Hone.
    change (1 <=? 1) with true. cbv iota. simpl. rewrite Hone. reflexivity.
Qed.

Lemma increase_decrease_round_trip_witness :
  mag_level (mag_decrease (mag_increase module_init)) = mag_level module_init
  /\ mag_level (mag_increase (mag_decrease module_init)) = 2.
Proof.
  destruct (increase_decrease_round_trip module_init) as (Hback & _ & _ & Hfloor).
  - simpl. lia.
  - split; [exact Hback | apply Hfloor; reflexivity].
Defined.

(** X4: after any controls, [mag_getColor] returns a name (its index is
    never out of range), and right after a [mag_setColor] the name it
    returns stands at the same place in [color_names] as the effect just
    applied stands in [colors]. *)
Theorem mag_getColor_names_the_effect (cs : list control) :
  exists g g' i effect name,
    perform_all cs module_init = Some g
    /\ mag_setColor g = Some g'
    /\ last_effect g' = Some effect
    /\ mag_getColor g' = Some name
    /\ nth_error colors i = Some effect
    /\ nth_error color_names i = Some name
    /\ exists before, mag_getColor g = Some before.
Proof.
  destruct (perform_all_sane cs module_init module_init_sane)
    as (g & Hrun & (_ & Hcolor & _)).
  destruct (mag_setColor_result g) as (effect & Heffect & Hcall).
  pose proof (Z.mod_pos_bound (curr_color g + 1) 5 ltac:(lia)) as Hrange.
  assert (Hname : forall c, 0 <= c < 5 ->
            exists name, nth_error color_names (Z.to_nat c) = Some name
                         /\ py_index color_names c = Some name).
  { intros c Hc. unfold py_index.
    destruct (Z.leb_spec 0 c) as [_ | Hneg]; [| lia].
    assert (Hcases : c = 0 \/ c = 1 \/ c = 2 \/ c = 3 \/ c = 4) by lia.
    destruct Hcases as [-> | [-> | [-> | [-> | ->]]]];
      eexists; split; reflexivity. }
  destruct (Hname _ Hrange) as (name & Hnth & Hget).
  destruct (Hname _ Hcolor) as (before & _ & Hbefore).
  eexists g, _, (Z.to_nat ((curr_color g + 1) mod 5)), effect, name.
  split; [exact Hrun |]. split; [exact Hcall |].
  split; [unfold last_effect; simpl; rewrite rev_app_distr; reflexivity |].
  split; [exact Hget |]. split; [exact Heffect |]. split; [exact Hnth |].
  exists before. exact Hbefore.
Qed.

(** ** More on cross-thread execution *)

Section ExecuteMore.

Context {Args Result : Type}.

Lemma on_owning_thread_false (w : Window Args Result) (current : Z) :
  _thread_id w <> Some current -> on_owning_thread w current = false.
Proof.
  intros Hthread. destruct (on_owning_thread w current) eqn:E; [| reflexivity].
  apply on_owning_thread_true in E. contradiction.
Qed.

Lemma execute_other_thread (command : Command Args Result) (args : Args)
  (current : Z) (w : Window Args Result) (os : OS) :
  _thread_id w <> Some current -> items (_result w) = [] ->
  _execute current command args (w, os)
  = (Blocks,
     (with_queues (Queue_put (command, args) (_command w)) (_result w) w,
      os ++ [PostMessage (hwnd w) WM_USER])).
Proof.
  intros Hthread Hr. unfold _execute.
  rewrite on_owning_thread_false by exact Hthread. cbn zeta. simpl.
  unfold Queue_get. rewrite Hr. reflexivity.
Qed.

(** X5: a call of [_execute] from another thread on a window with empty
    queues waits; once the window's thread has handled [WM_USER], the
    waiting [get()] returns exactly what the command returns, the operating
    system is as the command left it, and the window object differs from
    the one before the call only in the counters of its two queues, each of
    which saw one [put] and one [get]. *)
Theorem cross_thread_call_completes (command : Command Args Result)
  (args : Args) (current : Z) (w : Window Args Result) (os : OS) :
  _thread_id w <> Some current ->
  items (_command w) = [] -> items (_result w) = [] ->
  let posted := os ++ [PostMessage (hwnd w) WM_USER] in
  let waiting := snd (_execute current command args (w, os)) in
  let served := snd (_on_command_get waiting) in
  let final := snd (_execute_resume served) in
  fst (_execute current command args (w, os)) = Blocks
  /\ fst (_on_command_get waiting) = Returns tt
  /\ fst (_execute_resume served) = Returns (fst (command args posted))
  /\ snd final = snd (command args posted)
  /\ fst final
     = with_queues
         {| items := []; puts := S (puts (_command w));
            gets := S (gets (_command w)) |}
         {| items := []; puts := S (puts (_result w));
            gets := S (gets (_result w)) |} w.
Proof.
  intros Hthread Hc Hr. cbv zeta.
  rewrite (execute_other_thread command args current w os Hthread Hr).
  cbn [fst snd].
  unfold _on_command_get, Queue_get, Queue_put. simpl. rewrite Hc. simpl.
  destruct (command args (os ++ [PostMessage (hwnd w) WM_USER])) as [r os'].
  simpl. unfold Queue_get. simpl. rewrite Hr. simpl.
  repeat split; reflexivity.
Qed.

(** X6: results carry no mark of the caller.  When two threads have each
    called [_execute] on a window with empty queues, the window's thread
    serves the command that was queued first, and the next [get()] to run,
    whichever caller it belongs to, receives the result of that first
    command while the second command is still queued. *)
Theorem results_are_handed_out_in_queue_order
  (first second : Command Args Result) (a1 a2 : Args) (t1 t2 : Z)
  (w : Window Args Result) (os : OS) :
  _thread_id w <> Some t1 -> _thread_id w <> Some t2 ->
  items (_command w) = [] -> items (_result w) = [] ->
  let one := snd (_execute t1 first a1 (w, os)) in
  let two := snd (_execute t2 second a2 one) in
  let served := snd (_on_command_get two) in
  fst (_execute t2 second a2 one) = Blocks
  /\ fst (_on_command_get two) = Returns tt
  /\ fst (_execute_resume served) = Returns (fst (first a1 (snd two)))
  /\ items (_command (fst (snd (_execute_resume served)))) = [(second, a2)]
  /\ items (_result (fst (snd (_execute_resume served)))) = [].
Proof.
  intros H1 H2 Hc Hr. cbv zeta.
  rewrite (execute_other_thread first a1 t1 w os H1 Hr). cbn [fst snd].
  rewrite execute_other_thread; [| exact H2 | exact Hr].
  cbn [fst snd].
  unfold _on_command_get, Queue_get, Queue_put. simpl. rewrite Hc. simpl.
  match goal with |- context [first a1 ?o] => destruct (first a1 o) as [r os'] end.
  simpl. unfold Queue_get. simpl. rewrite Hr. simpl.
  repeat split; reflexivity.
Qed.

End ExecuteMore.

Lemma cross_thread_call_completes_witness :
  fst (_execute_resume
         (snd (_on_command_get (snd (_execute 8 successor 41 (owned_by_7, []))))))
  = Returns 42.
Proof.
  assert (Hother : _thread_id owned_by_7 <> Some 8) by discriminate.
  exact (proj1 (proj2 (proj2
           (cross_thread_call_completes successor 41 8 owned_by_7 []
              Hother eq_refl eq_refl)))).
Defined.

Lemma results_are_handed_out_in_queue_order_witness :
  fst (_execute_resume
         (snd (_on_command_get
                 (snd (_execute 9 (fun n os => (n * 2, os)) 5
                         (snd (_execute 8 successor 41 (owned_by_7, []))))))))
  = Returns 42.
Proof.
  assert (H8 : _thread_id owned_by_7 <> Some 8) by discriminate.
  assert (H9 : _thread_id owned_by_7 <> Some 9) by discriminate.
  exact (proj1 (proj2 (proj2
           (results_are_handed_out_in_queue_order successor
              (fun n os => (n * 2, os)) 41 5 8 9 owned_by_7 []
              H8 H9 eq_refl eq_refl)))).
Defined.

(** ** The life of the host window *)

Lemma execute_keeps_handles {Args Result : Type} (current : Z)
  (command : Command Args Result) (args : Args) (w : Window Args Result)
  (os : OS) :
  let w' := fst (snd (_execute current command args (w, os))) in
  magnifier_hwnd w' = magnifier_hwnd w /\ _thread_id w' = _thread_id w.
Proof.
  unfold _execute. destruct (on_owning_thread w current).
  - destruct (command args os). simpl. split; reflexivity.
  - cbn zeta. destruct (Queue_get _) as [[r q] |]; simpl; split; reflexivity.
Qed.

Lemma toggle_keeps_handles (current : Z) (value : bool) (max_x max_y : Z)
  (w : MagnifierWindow) (os : OS) :
  let w' := fst (snd (set_fullscreen_mode current value max_x max_y (w, os))) in
  magnifier_hwnd w' = magnifier_hwnd w /\ _thread_id w' = _thread_id w.
Proof.
  unfold set_fullscreen_mode. cbv zeta.
  destruct (is_alive (with_fullscreen value (_fullscreen_rectangle w) w));
    [| simpl; split; reflexivity].
  destruct value; cbv beta iota;
    match goal with
    | |- context [_execute ?c ?f ?a (?w1, ?o)] =>
        destruct (execute_keeps_handles c f a w1 o) as (E1 & E2)
    end;
    cbv zeta in *; rewrite E1, E2; split; reflexivity.
Qed.

Ltac life := unfold handles_follow_life; cbn [fst snd]; unfold is_alive;
  simpl; split; intros; repeat split; auto; try discriminate; try congruence.

Lemma step_handles_follow_life (e : event) (s : MagnifierState) :
  handles_follow_life s -> handles_follow_life (step s e).
Proof.
  intros Hlife. pose proof Hlife as [Hup Hdown].
  destruct s as [w os]. unfold step, is_alive in *. cbn [fst snd] in *.
  destruct (_window_started_event w) eqn:Halive.
  - destruct (Hup eq_refl) as (Hh & Hm & Ht & Hr).
    destruct e; cbn [handle].
    + unfold create_window, is_alive. rewrite Halive. exact Hlife.
    + unfold on_event, _on_resize, fullscreen_mode. cbn [fst]. rewrite Hr.
      destruct client as [[[? ?] ?] ?].
      destruct (_fullscreen_mode w); life; rewrite ?Halive in *; try discriminate; auto.
    + unfold on_event, _on_move, fullscreen_mode. cbn [fst]. rewrite Hr.
      destruct (_fullscreen_mode w); [exact Hlife |].
      destruct frame as [[[? ?] ?] ?].
      life; rewrite ?Halive in *; try discriminate; auto.
    + unfold on_event, _draw, is_alive. cbn [fst]. rewrite Hr, Halive. simpl.
      destruct (hwnd w) eqn:Hhw; [| contradiction].
      life; rewrite ?Halive, ?Hhw in *; try discriminate; auto.
    + unfold on_event, _on_command_get. cbn [fst]. rewrite Hr.
      destruct (Queue_get (_command w)) as [[[command args] q] |];
        [| exact Hlife].
      destruct (command args os).
      life; rewrite ?Halive in *; try discriminate; auto.
    + unfold on_event, _on_destroy, _close, is_alive. cbn [fst].
      rewrite Hr, Halive. life.
    + destruct (toggle_keeps_geometry current value max_x max_y w os)
        as (E1 & E2 & E3 & _).
      destruct (toggle_keeps_handles current value max_x max_y w os)
        as (E4 & E5).
      cbv zeta in *. unfold handles_follow_life, is_alive. cbn [fst snd].
      rewrite E1, E2, E3, E4, E5, Halive.
      split; intros; [auto | discriminate].
    + unfold _execute_resume.
      destruct (Queue_get (_result w)) as [[r q] |]; [| exact Hlife].
      life; rewrite ?Halive in *; try discriminate; auto.
  - destruct (Hdown eq_refl) as (Hh & Hm & Hr).
    destruct e; cbn [handle].
    + unfold create_window, is_alive. rewrite Halive. life.
    + unfold on_event. cbn [fst]. rewrite Hr. exact Hlife.
    + unfold on_event. cbn [fst]. rewrite Hr. exact Hlife.
    + unfold on_event. cbn [fst]. rewrite Hr. exact Hlife.
    + unfold on_event. cbn [fst]. rewrite Hr. exact Hlife.
    + unfold on_event. cbn [fst]. rewrite Hr. exact Hlife.
    + destruct (toggle_keeps_geometry current value max_x max_y w os)
        as (E1 & E2 & E3 & _).
      destruct (toggle_keeps_handles current value max_x max_y w os)
        as (E4 & E5).
      cbv zeta in *. unfold handles_follow_life, is_alive. cbn [fst snd].
      rewrite E1, E2, E3, E4, Halive.
      split; intros; [discriminate | auto].
    + unfold _execute_resume.
      destruct (Queue_get (_result w)) as [[r q] |]; [| exact Hlife].
      life; rewrite ?Halive in *; try discriminate; auto.
Qed.

Lemma run_events_handles_follow_life (es : list event) (s : MagnifierState) :
  handles_follow_life s -> handles_follow_life (run_events es s).
Proof.
  revert s. induction es as [| e es IH]; intros s Hs; simpl; [exact Hs |].
  apply IH, step_handles_follow_life, Hs.
Qed.

Lemma initial_handles_follow_life : handles_follow_life initial.
Proof. life. Qed.

(** X7: in every state the host can reach, the two window handles and the
    registry entry exist exactly while the window is alive: a live window
    has both handles, a recorded owning thread and its registry entry, and a
    window that is not alive has no handle and no registry entry. *)
Theorem handles_exist_while_alive (es : list event) :
  let w := fst (run_events es initial) in
  (is_alive w = true ->
   hwnd w <> None /\ magnifier_hwnd w <> None
   /\ _thread_id w <> None /\ registered w = true)
  /\ (is_alive w = false ->
      hwnd w = None /\ magnifier_hwnd w = None /\ registered w = false).
Proof.
  exact (run_events_handles_follow_life es initial initial_handles_follow_life).
Qed.




(** ** Fullscreen mode *)

Lemma geometry_message_in_fullscreen (e : event) (s : MagnifierState) :
  is_geometry_message e = true -> _fullscreen_mode (fst s) = true ->
  rectangle (fst (step s e)) = rectangle (fst s)
  /\ _fullscreen_mode (fst (step s e)) = true
  /\ _fullscreen_rectangle (fst (step s e)) = _fullscreen_rectangle (fst s)
  /\ is_alive (fst (step s e)) = is_alive (fst s)
  /\ _thread_id (fst (step s e)) = _thread_id (fst s)
  /\ hwnd (fst (step s e)) = hwnd (fst s).
Proof.
  intros He Hmode. destruct s as [w os]. unfold step. cbn [fst snd] in *.
  destruct e; try discriminate; cbn [handle].
  - unfold on_event, _on_resize, fullscreen_mode. cbn [fst].
    destruct client as [[[? ?] ?] ?].
    destruct (registered w); rewrite ?Hmode; simpl; auto 10.
  - unfold on_event, _on_move, fullscreen_mode. cbn [fst].
    destruct (registered w); rewrite ?Hmode; simpl; auto 10.
  - unfold on_event, _draw, is_alive. cbn [fst].
    destruct (registered w); simpl; auto 10.
    destruct (_window_started_event w) eqn:Halive; simpl; auto 10.
    destruct (hwnd w) eqn:Hh; simpl; rewrite ?Halive, ?Hh; auto 10.
Qed.

(** X9: while the host is in fullscreen mode, resize, move and paint
    messages leave the windowed rectangle (tracked position and size)
    untouched.  Leaving fullscreen mode from the owning thread afterwards
    places the window at the rectangle it had before, and that rectangle is
    again the source of magnification. *)
Theorem fullscreen_keeps_windowed_rectangle (es : list event)
  (s : MagnifierState) (current max_x max_y : Z) :
  _fullscreen_mode (fst s) = true ->
  is_alive (fst s) = true ->
  _thread_id (fst s) = Some current ->
  forallb is_geometry_message es = true ->
  let s' := run_events es s in
  let back := step s' (Toggle current false max_x max_y) in
  rectangle (fst s') = rectangle (fst s)
  /\ current_rectangle (fst s') = _fullscreen_rectangle (fst s)
  /\ fst (handle (Toggle current false max_x max_y) s') = Returns tt
  /\ current_rectangle (fst back) = rectangle (fst s)
  /\ snd back = snd s' ++ partial_screen_calls (hwnd (fst s)) (rectangle (fst s)).
Proof.
  intros Hmode Halive Hthread Hes. cbv zeta.
  assert (Hkept : rectangle (fst (run_events es s)) = rectangle (fst s)
                  /\ _fullscreen_mode (fst (run_events es s)) = true
                  /\ _fullscreen_rectangle (fst (run_events es s))
                     = _fullscreen_rectangle (fst s)
                  /\ is_alive (fst (run_events es s)) = true
                  /\ _thread_id (fst (run_events es s)) = Some current
                  /\ hwnd (fst (run_events es s)) = hwnd (fst s)).
  { revert s Hmode Halive Hthread Hes.
    induction es as [| e es IH]; intros s Hmode Halive Hthread Hes.
    - simpl. auto 10.
    - simpl in Hes. apply andb_true_iff in Hes as [He Hes].
      destruct (geometry_message_in_fullscreen e s He Hmode)
        as (E1 & E2 & E3 & E4 & E5 & E6).
      cbn [run_events fold_left].
      destruct (IH (step s e)) as (F1 & F2 & F3 & F4 & F5 & F6); auto;
        try congruence.
      fold (run_events es (step s e)).
      rewrite F1, F3, F6. auto 10. }
  destruct Hkept as (K1 & K2 & K3 & K4 & K5 & K6).
  destruct (run_events es s) as [w' os'].
  unfold step, is_alive in *. cbn [fst snd] in *.
  split; [exact K1 |].
  split; [unfold current_rectangle; rewrite K2; exact K3 |].
  cbn [handle]. unfold set_fullscreen_mode, is_alive. cbn [with_fullscreen
    _window_started_event]. rewrite K4.
  unfold _execute, on_owning_thread. cbn [with_fullscreen _thread_id].
  rewrite K5, Z.eqb_refl.
  unfold make_partial_screen_command, partial_screen_calls,
    make_partial_screen, current_rectangle. simpl.
  rewrite <- K1, K6. unfold rectangle. simpl.
  repeat split; reflexivity.
Qed.

Lemma fullscreen_keeps_windowed_rectangle_witness :
  current_rectangle
    (fst (step (run_events [Resize (0, 0, 1920, 1080); Move (0, 0, 1920, 1080) 4 4 23;
                            Paint]
                  (step created (Toggle 11 true 1920 1080)))
            (Toggle 11 false 1920 1080)))
  = (0, 0, 400, 400).
Proof.
  exact (proj1 (proj2 (proj2 (proj2
           (fullscreen_keeps_windowed_rectangle
              [Resize (0, 0, 1920, 1080); Move (0, 0, 1920, 1080) 4 4 23; Paint]
              (step created (Toggle 11 true 1920 1080)) 11 1920 1080
              eq_refl eq_refl eq_refl eq_refl))))).
Defined.

(** X10: setting [fullscreen_mode] on a window that is not alive only
    records the flag: no Win32 call is made, nothing is queued and the
    screen metrics are not used.  The next [create_window] then reads the
    screen size itself, ends with the three calls of [make_fullscreen] for
    that size, and makes the full-screen rectangle the source of
    magnification. *)
Theorem fullscreen_flag_waits_for_creation (current : Z) (max_x max_y : Z)
  (w : MagnifierWindow) (os : OS) (rd : creation_reading) :
  is_alive w = false ->
  let flagged := with_fullscreen true (_fullscreen_rectangle w) w in
  let full := get_fullscreen_size (SM_CXSCREEN rd) (SM_CYSCREEN rd) in
  set_fullscreen_mode current true max_x max_y (w, os)
  = (Returns tt, (flagged, os))
  /\ fst (create_window rd (flagged, os)) = Returns tt
  /\ current_rectangle (fst (snd (create_window rd (flagged, os)))) = full
  /\ exists before,
       snd (snd (create_window rd (flagged, os)))
       = before ++ fullscreen_calls (Some (host_hwnd rd)) full.
Proof.
  intros Hdead. cbv zeta. unfold is_alive in Hdead.
  unfold set_fullscreen_mode, create_window, is_alive.
  cbn [with_fullscreen _window_started_event _fullscreen_mode].
  rewrite Hdead. cbn [fst snd].
  split; [reflexivity |]. split; [reflexivity |]. split; [reflexivity |].
  unfold make_fullscreen, fullscreen_calls. eexists. reflexivity.
Qed.

Lemma fullscreen_flag_waits_for_creation_witness :
  set_fullscreen_mode 3 true 800 600 initial
  = (Returns tt, (with_fullscreen true (0, 0, 200, 200) (fst initial), []))
  /\ current_rectangle
       (fst (snd (create_window desktop
                    (with_fullscreen true (0, 0, 200, 200) (fst initial), []))))
     = (0, 0, 1920, 1080).
Proof.
  pose proof (fullscreen_flag_waits_for_creation 3 800 600 (fst initial) []
                desktop eq_refl) as H.
  split; [exact (proj1 H) | exact (proj1 (proj2 (proj2 H)))].
Defined.

(** ** Starting a window that is already alive *)



End windows_utils_proofs.

(** * Properties of [NVDAMagnifier.py] *)
Module NVDAMagnifier_proofs.

Import python vision NVDAMagnifier.

(** ** The enabled contexts *)

Lemma enabledContexts_unfold (m : NVDAMagnifier) :
  enabledContexts m
  = (if magnifyFocus (_settings m) then [FOCUS] else [])
    ++ (if magnifyNavigator (_settings m) then [NAVIGATOR] else [])
    ++ (if magnifyBrowseMode (_settings m) then [BROWSEMODE] else []).
Proof.
  unfold enabledContexts, _get_enabledContexts, _supportedContexts.
  destruct (_settings m) as [[] [] []]; reflexivity.
Qed.

Lemma FOCUS_NAVIGATOR_never_enabled (m : NVDAMagnifier) :
  FOCUS_NAVIGATOR ∉ enabledContexts m.
Proof.
  rewrite enabledContexts_unfold. intros Hin%list_elem_of_In.
  destruct (_settings m) as [[] [] []]; simpl in Hin; intuition discriminate.
Qed.

(** ** The paint pass *)

(** C1 as stated fails: it promises exactly one entry, and one outline, for
    the shared rectangle in every snapshot where focus and navigator are
    enabled and equal.  When the browse-mode context is enabled as well and
    holds the same rectangle, the loop of [_paint] merges focus and
    navigator and then stores the browse-mode rectangle under its own key:
    the dict has two entries for the one rectangle and two outlines are
    drawn on it, the merged one and the browse-mode one. *)
Lemma paint_draws_an_equal_browse_mode_rectangle_too :
  magnifyFocus (_settings all_on_button) = true
  /\ magnifyNavigator (_settings all_on_button) = true
  /\ contextToRectMap all_on_button !! FOCUS = Some (Some button)
  /\ contextToRectMap all_on_button !! NAVIGATOR = Some (Some button)
  /\ paint_contextRects all_on_button
     = [(FOCUS_NAVIGATOR, button); (BROWSEMODE, button)]
  /\ length (filter (fun item => snd item = button)
               (paint_contextRects all_on_button)) = 2%nat
  /\ _paint untransformed overlay (Some all_on_button)
     = Outlines [(SOLID_BLUE, button); (SOLID_YELLOW, button)].
Proof. repeat split; vm_compute; reflexivity. Qed.

(** C1, as the code has it: when the focus and navigator contexts are both
    enabled and hold equal rectangles, the dict of rectangles to draw has
    the entry [FOCUS_NAVIGATOR] for that rectangle, no [FOCUS] entry and no
    [NAVIGATOR] entry; the only other entry it can have is the browse-mode
    one, which is kept and drawn in its own style whatever its rectangle.
    So focus and navigator together give one outline, in the merged style,
    and the dict has one entry for the shared rectangle when the
    browse-mode entry is absent or holds another rectangle, and two when it
    holds the same one. *)
Theorem paint_merges_focus_and_navigator
  (to_outline : option RectLTWH -> HighlightStyle -> RectLTWH -> RectLTWH)
  (self : MagnifyWindow) (m : NVDAMagnifier) (r : RectLTWH) :
  magnifyFocus (_settings m) = true ->
  magnifyNavigator (_settings m) = true ->
  contextToRectMap m !! FOCUS = Some (Some r) ->
  contextToRectMap m !! NAVIGATOR = Some (Some r) ->
  paint_contextRects m = (FOCUS_NAVIGATOR, r) :: browse_entries m
  /\ dict_get FOCUS_NAVIGATOR (paint_contextRects m) = Some r
  /\ dict_get FOCUS (paint_contextRects m) = None
  /\ dict_get NAVIGATOR (paint_contextRects m) = None
  /\ filter (fun item => fst item <> BROWSEMODE) (paint_contextRects m)
     = [(FOCUS_NAVIGATOR, r)]
  /\ length (filter (fun item => snd item = r) (paint_contextRects m))
     = (if decide (browse_entries m = [(BROWSEMODE, r)]) then 2%nat else 1%nat)
  /\ _paint to_outline self (Some m)
     = Outlines
         ((SOLID_BLUE, to_outline (location self) SOLID_BLUE r)
          :: map (fun item =>
                    (SOLID_YELLOW,
                     to_outline (location self) SOLID_YELLOW (snd item)))
                 (browse_entries m)).
Proof.
  intros Hfocus Hnavigator Hf Hn.
  assert (Hrects : paint_contextRects m = (FOCUS_NAVIGATOR, r) :: browse_entries m).
  { assert (Hstep1 : paint_step (contextToRectMap m) [] FOCUS = [(FOCUS, r)]).
    { unfold paint_step. rewrite Hf. reflexivity. }
    assert (Hstep2 : paint_step (contextToRectMap m) [(FOCUS, r)] NAVIGATOR
                     = [(FOCUS_NAVIGATOR, r)]).
    { unfold paint_step. rewrite Hn. cbn [dict_get].
      rewrite decide_True by reflexivity.
      rewrite !bool_decide_eq_true_2 by reflexivity. reflexivity. }
    unfold paint_contextRects, browse_entries.
    rewrite enabledContexts_unfold, Hfocus, Hnavigator.
    destruct (magnifyBrowseMode (_settings m));
      cbn [app fold_left]; rewrite Hstep1, Hstep2; [| reflexivity].
    unfold paint_step.
    destruct (contextToRectMap m !! BROWSEMODE) as [[rb |] |]; reflexivity. }
  assert (Hbrowse : browse_entries m = []
                    \/ exists rb, browse_entries m = [(BROWSEMODE, rb)]).
  { unfold browse_entries.
    destruct (magnifyBrowseMode (_settings m)); [| auto].
    destruct (contextToRectMap m !! BROWSEMODE) as [[rb |] |]; eauto. }
  assert (Hcount : length (filter (fun item => snd item = r)
                            (paint_contextRects m))
                   = if decide (browse_entries m = [(BROWSEMODE, r)])
                     then 2%nat else 1%nat).
  { rewrite Hrects. rewrite filter_cons_True by reflexivity. cbn [length].
    destruct Hbrowse as [-> | [rb ->]].
    - rewrite decide_False by discriminate. reflexivity.
    - destruct (decide (rb = r)) as [-> | Hne].
      + rewrite decide_True by reflexivity.
        rewrite filter_cons_True by reflexivity. reflexivity.
      + rewrite decide_False by congruence.
        rewrite filter_cons_False by (cbn [snd]; congruence). reflexivity. }
  refine (conj Hrects (conj _ (conj _ (conj _ (conj _ (conj Hcount _))))));
    try unfold _paint; rewrite Hrects;
    destruct Hbrowse as [-> | [rb ->]]; reflexivity.
Qed.

Lemma paint_merges_focus_and_navigator_witness :
  paint_contextRects on_button = [(FOCUS_NAVIGATOR, button)]
  /\ length (filter (fun item => snd item = button)
               (paint_contextRects on_button)) = 1%nat
  /\ _paint untransformed overlay (Some on_button)
     = Outlines [(SOLID_BLUE, button)].
Proof.
  pose proof (paint_merges_focus_and_navigator untransformed overlay on_button
                button eq_refl eq_refl eq_refl eq_refl)
    as (Hrects & _ & _ & _ & _ & Hcount & Hpaint).
  exact (conj Hrects (conj Hcount Hpaint)).
Defined.

(** ** Updates of the context rectangles *)

Section Updates.

Variable Obj : Type.
Variable getContextRect : Context -> option Obj -> resolution.
Variable isObjectInActiveTreeInterceptor : Obj -> bool.

Local Abbreviation updateContextRect := (updateContextRect Obj getContextRect).
Local Abbreviation handleBrowseModeMove :=
  (handleBrowseModeMove Obj getContextRect).
Local Abbreviation handleFocusChange :=
  (handleFocusChange Obj getContextRect isObjectInActiveTreeInterceptor).

(** C6: for a context that is not enabled, [updateContextRect] returns at
    once: the provider (its map of rectangles included) and the magnifier
    globals are what they were, so no entry is written or removed and the
    engine receives no call. *)
Theorem updateContextRect_disabled_is_noop (context : Context)
  (rect : option RectLTWH) (obj : option Obj) (s : provider_state) :
  context ∉ enabledContexts (fst s) ->
  updateContextRect context rect obj s = (Returns tt, s).
Proof.
  intros Hdisabled. destruct s as [m g]. unfold NVDAMagnifier.updateContextRect.
  simpl in Hdisabled. rewrite bool_decide_eq_false_2 by exact Hdisabled.
  reflexivity.
Qed.


(** [updateContextRect] either returns or raises what the resolver raised. *)
Lemma updateContextRect_outcome (context : Context) (rect : option RectLTWH)
  (obj : option Obj) (s : provider_state) :
  fst (updateContextRect context rect obj s) = Returns tt
  \/ exists e, updateContextRect context rect obj s = (Raises e, s)
               /\ caught e = false.
Proof.
  destruct s as [m g]. unfold NVDAMagnifier.updateContextRect.
  destruct (negb _); [left; reflexivity |].
  destruct rect as [r |]; [left; reflexivity |].
  destruct (getContextRect context obj) as [[r |] | e]; try (left; reflexivity).
  destruct (caught e) eqn:Hcaught; [left; reflexivity |].
  right. exists e. split; [reflexivity | exact Hcaught].
Qed.


(** When the focus update raises, [handleFocusChange] stops there. *)
Lemma handleFocusChange_propagates (obj : Obj) (s s1 : provider_state)
  (e : exception) :
  updateContextRect FOCUS None (Some obj) s = (Raises e, s1) ->
  handleFocusChange obj s = (Raises e, s1).
Proof.
  intros Hfocus. unfold NVDAMagnifier.handleFocusChange. rewrite Hfocus.
  destruct s1. reflexivity.
Qed.

End Updates.

Lemma updateContextRect_disabled_is_noop_witness :
  (FOCUS_NAVIGATOR ∉ enabledContexts on_button)
  /\ updateContextRect Z finds_button FOCUS_NAVIGATOR (Some button) None
       (on_button, windows_utils.module_init)
     = (Returns tt, (on_button, windows_utils.module_init)).
Proof.
  split; [apply FOCUS_NAVIGATOR_never_enabled |].
  apply (updateContextRect_disabled_is_noop Z finds_button FOCUS_NAVIGATOR
           (Some button) None (on_button, windows_utils.module_init)).
  apply FOCUS_NAVIGATOR_never_enabled.
Defined.

Lemma FOCUS_enabled_in_focus_provider : FOCUS ∈ enabledContexts focus_provider.
Proof. apply list_elem_of_In. simpl. auto. Qed.



(** ** Overlay bounds *)

(** Whatever the displays, the overlay is one pixel lower than the box the
    displays span, and the call fails only when [SetWindowPos] does. *)
Lemma updateLocationForDisplays_height (displays : list wx.Rect)
  (SetWindowPos_ok : bool) (self : MagnifyWindow) :
  let total := mouseHandler.getTotalWidthAndHeightAndMinimumPosition displays in
  location (fst (snd (updateLocationForDisplays displays SetWindowPos_ok self)))
  = Some (locationHelper.MkRectLTWH (fst (snd total)) (snd (snd total))
            (fst (fst total)) (snd (fst total) - 1))
  /\ fst (updateLocationForDisplays displays SetWindowPos_ok self)
     = (if SetWindowPos_ok then Returns tt else Raises WinError).
Proof.
  unfold updateLocationForDisplays.
  destruct (mouseHandler.getTotalWidthAndHeightAndMinimumPosition displays)
    as [[screenWidth screenHeight] [minX minY]].
  destruct SetWindowPos_ok; split; reflexivity.
Qed.

(** C7: with no display the bounds are still computed (a location is
    recorded, and the call raises only if [SetWindowPos] reports failure);
    with one 1920 by 1080 display at the origin the location is left 0,
    top 0, width 1920, height 1079, and these are the numbers passed to
    [SetWindowPos]. *)
Theorem overlay_bounds_from_displays (SetWindowPos_ok : bool)
  (self : MagnifyWindow) :
  (exists bounds,
     location (fst (snd (updateLocationForDisplays [] SetWindowPos_ok self)))
     = Some bounds)
  /\ fst (updateLocationForDisplays [] SetWindowPos_ok self)
     = (if SetWindowPos_ok then Returns tt else Raises WinError)
  /\ location
       (fst (snd (updateLocationForDisplays [wx.MkRect 0 0 1920 1080]
                    SetWindowPos_ok self)))
     = Some (locationHelper.MkRectLTWH 0 0 1920 1079)
  /\ fst (updateLocationForDisplays [wx.MkRect 0 0 1920 1080]
            SetWindowPos_ok self)
     = (if SetWindowPos_ok then Returns tt else Raises WinError)
  /\ In (SetWindowPos_TOPMOST (handle self) 0 0 1920 1079)
        (snd (snd (updateLocationForDisplays [wx.MkRect 0 0 1920 1080]
                     SetWindowPos_ok self))).
Proof.
  split; [| split; [| split; [| split]]].
  - eexists.
    apply (updateLocationForDisplays_height [] SetWindowPos_ok self).
  - apply (updateLocationForDisplays_height [] SetWindowPos_ok self).
  - apply (updateLocationForDisplays_height [wx.MkRect 0 0 1920 1080]
             SetWindowPos_ok self).
  - apply (updateLocationForDisplays_height [wx.MkRect 0 0 1920 1080]
             SetWindowPos_ok self).
  - destruct SetWindowPos_ok; simpl; auto.
Qed.

Example two_displays_side_by_side :
  location
    (fst (snd (updateLocationForDisplays
                 [wx.MkRect 0 0 1920 1080; wx.MkRect (-1280) 56 1280 1024]
                 true overlay)))
  = Some (locationHelper.MkRectLTWH (-1280) 0 3200 1079).
Proof. reflexivity. Qed.

(** ** Construction and termination *)

(** The constructor always comes to an end within the timeout, and raises
    exactly when the running event was not set in time or the thread is no
    longer alive when the wait returns. *)
Lemma init_spec (settings : NVDAMagnifierSettings) (ident : Z)
  (worker : nat -> progress) :
  exists (waitResult : bool) (n : nat),
    (n <= init_timeout)%nat
    /\ event_set (worker n) = waitResult
    /\ (forall k, (k < n)%nat -> event_set (worker k) = false)
    /\ __init__ settings ident worker
       = (if negb waitResult || negb (thread_is_alive (worker n))
          then Raises RuntimeError else Returns tt,
          observe (worker n)
            {| _settings := settings; contextToRectMap := ∅;
               _magnifierThread := Some ident; _window := None;
               gdiPlus := true |}).
Proof.
  destruct (python_proofs.Event_wait_timeout_answers
              (fun n => event_set (worker n)) init_timeout init_timeout
              (Nat.le_refl _)) as (b & n & Hwait & Hn).
  pose proof (python_proofs.Event_wait_from_spec
                (fun n => event_set (worker n)) (Some init_timeout)
                init_timeout 0) as Hspec.
  unfold Event_wait in Hwait. rewrite Hwait in Hspec.
  destruct Hspec as (_ & Hflag & _ & Hbefore).
  exists b, n. split; [exact Hn |]. split; [exact Hflag |].
  split; [intros k Hk; apply Hbefore; lia |].
  unfold __init__, Event_wait. rewrite Hwait.
  destruct (negb b || negb (thread_is_alive (worker n))); reflexivity.
Qed.

Lemma terminate_spec (post_ok worker_ends : bool) (m : NVDAMagnifier) :
  terminate post_ok worker_ends m
  = (if has_window_to_quit m then
       if negb post_ok then (Raises WinError, m)
       else if worker_ends then (Returns tt, terminated m)
            else (Blocks, m)
     else (Returns tt, terminated m)).
Proof. reflexivity. Qed.

(** C4, as the code has it: when the running event is not set within the
    timeout, or the worker thread is dead once it is, the constructor raises
    [RuntimeError].  Called afterwards, [terminate] returns, with the map
    cleared and GDI+ shut down, whenever the worker had assigned no window
    by then: the quit and join step is skipped.  When the worker had
    assigned a window with a handle, [terminate] raises [WinError] if
    posting the quit message fails, and otherwise returns once the worker
    thread has ended and stays in [join()] while it has not. *)
Theorem failed_start_then_terminate (settings : NVDAMagnifierSettings)
  (ident : Z) (worker : nat -> progress) :
  (forall n, (n <= init_timeout)%nat -> event_set (worker n) = true ->
             thread_is_alive (worker n) = false) ->
  fst (__init__ settings ident worker) = Raises RuntimeError
  /\ forall (later : progress) (post_ok worker_ends : bool),
       let m := observe later (snd (__init__ settings ident worker)) in
       (window_assigned later = None ->
        terminate post_ok worker_ends m = (Returns tt, terminated m))
       /\ (forall w, window_assigned later = Some w -> handle w <> 0 ->
           terminate post_ok worker_ends m
           = (if post_ok
              then if worker_ends then (Returns tt, terminated m)
                   else (Blocks, m)
              else (Raises WinError, m))).
Proof.
  intros Hfailed.
  destruct (init_spec settings ident worker) as (b & n & Hn & Hflag & _ & Hinit).
  rewrite Hinit. cbn [fst snd]. split.
  - destruct b; [| reflexivity].
    rewrite (Hfailed n Hn Hflag). reflexivity.
  - intros later post_ok worker_ends. cbv zeta.
    rewrite terminate_spec. unfold has_window_to_quit, observe. cbn.
    split.
    + intros ->. reflexivity.
    + intros w -> Hhandle.
      apply Z.eqb_neq in Hhandle. rewrite Hhandle. cbn.
      destruct post_ok, worker_ends; reflexivity.
Qed.

Lemma window_fails_never_signals (n : nat) :
  (n <= init_timeout)%nat -> event_set (window_fails n) = true ->
  thread_is_alive (window_fails n) = false.
Proof.
  intros _. unfold window_fails. destruct (n <? 40)%nat; discriminate.
Qed.

Lemma failed_start_then_terminate_witness :
  fst (__init__ all_enabled 77 window_fails) = Raises RuntimeError
  /\ fst (terminate false false
            (observe WindowConstructorRaised
               (snd (__init__ all_enabled 77 window_fails))))
     = Returns tt.
Proof.
  destruct (failed_start_then_terminate all_enabled 77 window_fails
              window_fails_never_signals) as [Hraise Hterminate].
  split; [exact Hraise |].
  destruct (Hterminate WindowConstructorRaised false false) as [Hnone _].
  exact (f_equal fst (Hnone eq_refl)).
Defined.

(** C4 as stated fails: the worker assigns the overlay window and then ends
    before it sets the running event.  The constructor raises, and
    [terminate], whose post to the ended thread fails, raises [WinError]. *)
Lemma terminate_after_failed_timer_raises :
  fst (__init__ all_enabled 77 timer_fails) = Raises RuntimeError
  /\ _window (snd (__init__ all_enabled 77 timer_fails)) = Some overlay
  /\ fst (terminate false true (snd (__init__ all_enabled 77 timer_fails)))
     = Raises WinError.
Proof. repeat split; vm_compute; reflexivity. Qed.

(** A worker that stays in the timer constructor keeps [join()] waiting. *)
Example terminate_waits_for_a_stuck_worker :
  fst (terminate true false
         (observe (InTimerConstructor overlay)
            (snd (__init__ all_enabled 77 (fun _ => InWindowConstructor)))))
  = Blocks.
Proof. vm_compute. reflexivity. Qed.

(** ** The enabled contexts, again *)

Lemma enabledContexts_are_the_flags_helper (m : NVDAMagnifier) :
  forall context,
    context ∈ enabledContexts m <-> setting_of (_settings m) context = true.
Proof.
  intros context. rewrite enabledContexts_unfold. unfold setting_of.
  destruct (_settings m) as [[] [] []]; destruct context; simpl;
    rewrite list_elem_of_In; simpl; intuition discriminate.
Qed.

(** ** The paint pass, in general *)

(** The dict of rectangles to draw, written out from what the loop sees of
    the three supported contexts. *)
Lemma paint_contextRects_closed (m : NVDAMagnifier) :
  paint_contextRects m
  = match shown m FOCUS, shown m NAVIGATOR with
    | Some f, Some n =>
        if decide (f = n) then [(FOCUS_NAVIGATOR, n)]
        else [(FOCUS, f); (NAVIGATOR, n)]
    | Some f, None => [(FOCUS, f)]
    | None, Some n => [(NAVIGATOR, n)]
    | None, None => []
    end
    ++ match shown m BROWSEMODE with
       | Some b => [(BROWSEMODE, b)]
       | None => []
       end.
Proof.
  unfold paint_contextRects, shown, rect_of.
  rewrite enabledContexts_unfold. unfold setting_of.
  destruct (magnifyFocus (_settings m)), (magnifyNavigator (_settings m)),
    (magnifyBrowseMode (_settings m));
    cbn [app fold_left]; unfold paint_step;
    destruct (contextToRectMap m !! FOCUS) as [[f |] |];
    destruct (contextToRectMap m !! NAVIGATOR) as [[n |] |];
    destruct (contextToRectMap m !! BROWSEMODE) as [[b |] |];
    cbn [dict_get dict_set dict_pop andb];
    repeat match goal with
           | |- context [bool_decide (?a = ?a)] =>
               rewrite (bool_decide_eq_true_2 (a = a)) by reflexivity
           | |- context [bool_decide (?a = ?b)] =>
               rewrite (bool_decide_eq_false_2 (a = b)) by discriminate
           end;
    cbn [dict_get dict_set dict_pop andb];
    try reflexivity;
    try (destruct (decide (f = n)) as [-> | Hne];
         [ rewrite ?decide_True by reflexivity;
           rewrite ?bool_decide_eq_true_2 by reflexivity;
           cbn [dict_get dict_set dict_pop andb]; reflexivity
         | rewrite ?decide_True by reflexivity;
           rewrite (bool_decide_eq_false_2 (Some f = Some n)) by congruence;
           cbn [dict_get dict_set dict_pop andb]; reflexivity ]).
Qed.

Lemma shown_FOCUS_NAVIGATOR (m : NVDAMagnifier) : shown m FOCUS_NAVIGATOR = None.
Proof. reflexivity. Qed.

Ltac paint_cases m :=
  rewrite (paint_contextRects_closed m);
  pose proof (shown_FOCUS_NAVIGATOR m);
  destruct (shown m FOCUS) as [f |] eqn:Hf;
  destruct (shown m NAVIGATOR) as [n |] eqn:Hn;
  destruct (shown m BROWSEMODE) as [b |] eqn:Hb;
  try destruct (decide (f = n)) as [-> | Hne];
  cbn [app].

(** The outlines of a paint pass and what the loop sees, both ways. *)
Lemma paint_contextRects_spec (m : NVDAMagnifier) :
  (forall context rect,
     In (context, rect) (paint_contextRects m) ->
     shown m context = Some rect
     \/ (context = FOCUS_NAVIGATOR
         /\ shown m FOCUS = Some rect /\ shown m NAVIGATOR = Some rect))
  /\ (forall context rect,
        shown m context = Some rect ->
        In (context, rect) (paint_contextRects m)
        \/ ((context = FOCUS \/ context = NAVIGATOR)
            /\ In (FOCUS_NAVIGATOR, rect) (paint_contextRects m)))
  /\ NoDup (map fst (paint_contextRects m))
  /\ (length (paint_contextRects m) <= 3)%nat.
Proof.
  split; [| split; [| split]].
  - intros context rect. paint_cases m; simpl; intros Hin;
      repeat match goal with
             | H : _ \/ _ |- _ => destruct H
             | H : (_, _) = (_, _) |- _ => injection H as <- <-
             | H : False |- _ => contradiction
             end; auto.
  - intros context rect Hshown.
    destruct context; revert Hshown; paint_cases m; simpl; intros Hshown;
      try congruence;
      repeat match goal with
             | H : Some _ = Some _ |- _ => injection H as ->
             end; auto 10.
  - paint_cases m; simpl;
      repeat (constructor; [rewrite list_elem_of_In; simpl; intuition discriminate |]);
      constructor.
  - paint_cases m; simpl; lia.
Qed.

(** X13: every outline of a paint pass comes from an enabled context whose
    map entry is a rectangle, either under that context or, for the focus
    and the navigator object on one rectangle, under the merged context;
    conversely every such context is drawn, itself or merged.  No context
    is drawn twice and there are at most three outlines. *)
Theorem paint_draws_what_is_shown (m : NVDAMagnifier) :
  (forall context rect,
     In (context, rect) (paint_contextRects m) ->
     shown m context = Some rect
     \/ (context = FOCUS_NAVIGATOR
         /\ shown m FOCUS = Some rect /\ shown m NAVIGATOR = Some rect))
  /\ (forall context rect,
        shown m context = Some rect ->
        In (context, rect) (paint_contextRects m)
        \/ ((context = FOCUS \/ context = NAVIGATOR)
            /\ In (FOCUS_NAVIGATOR, rect) (paint_contextRects m)))
  /\ NoDup (map fst (paint_contextRects m))
  /\ (length (paint_contextRects m) <= 3)%nat.
Proof. exact (paint_contextRects_spec m). Qed.

(** X14: [_paint] takes its early exit, drawing nothing, exactly when no
    enabled context has a rectangle in the map; settings that are off hide
    whatever rectangle the map still holds. *)
Theorem paint_draws_nothing_iff_nothing_shown
  (to_outline : option RectLTWH -> HighlightStyle -> RectLTWH -> RectLTWH)
  (self : MagnifyWindow) (m : NVDAMagnifier) :
  (_paint to_outline self (Some m) = NothingDrawn
   <-> forall context, shown m context = None)
  /\ (_paint to_outline self (Some m) = NothingDrawn
      <-> forall context, context ∈ enabledContexts m -> rect_of m context = None).
Proof.
  assert (Hfirst : _paint to_outline self (Some m) = NothingDrawn
                   <-> forall context, shown m context = None).
  { unfold _paint. split.
    - intros Hnothing context. revert Hnothing.
      paint_cases m; simpl; try discriminate.
      intros _. destruct context; assumption.
    - intros Hnone. rewrite (paint_contextRects_closed m).
      rewrite (Hnone FOCUS), (Hnone NAVIGATOR), (Hnone BROWSEMODE).
      reflexivity. }
  split; [exact Hfirst |].
  rewrite Hfirst. unfold shown.
  pose proof (enabledContexts_are_the_flags_helper m) as Hflags.
  split.
  - intros Hnone context Hin. specialize (Hnone context).
    apply Hflags in Hin. rewrite Hin in Hnone. exact Hnone.
  - intros Hnone context.
    destruct (setting_of (_settings m) context) eqn:Hset; [| reflexivity].
    apply Hnone, Hflags, Hset.
Qed.

(** X15: when the focus and the navigator object are both visible on
    different rectangles, nothing is merged: the focus outline is drawn
    first in its own style, the navigator outline second in its own, and a
    browse-mode outline, if any, last. *)
Theorem paint_keeps_distinct_rectangles_apart
  (to_outline : option RectLTWH -> HighlightStyle -> RectLTWH -> RectLTWH)
  (self : MagnifyWindow) (m : NVDAMagnifier) (f n : RectLTWH) :
  shown m FOCUS = Some f -> shown m NAVIGATOR = Some n -> f <> n ->
  paint_contextRects m
  = (FOCUS, f) :: (NAVIGATOR, n)
    :: match shown m BROWSEMODE with
       | Some b => [(BROWSEMODE, b)]
       | None => []
       end
  /\ dict_get FOCUS_NAVIGATOR (paint_contextRects m) = None
  /\ exists rest,
       _paint to_outline self (Some m)
       = Outlines ((DASH_BLUE, to_outline (location self) DASH_BLUE f)
                   :: (SOLID_PINK, to_outline (location self) SOLID_PINK n)
                   :: rest)
       /\ (length rest <= 1)%nat.
Proof.
  intros Hf Hn Hne. unfold _paint.
  rewrite (paint_contextRects_closed m), Hf, Hn.
  rewrite decide_False by exact Hne.
  destruct (shown m BROWSEMODE) as [b |]; cbn [app].
  - split; [reflexivity |]. split; [reflexivity |].
    eexists. split; [reflexivity |]. simpl. lia.
  - split; [reflexivity |]. split; [reflexivity |].
    eexists. split; [reflexivity |]. simpl. lia.
Qed.

Lemma paint_keeps_distinct_rectangles_apart_witness :
  paint_contextRects apart = [(FOCUS, button); (NAVIGATOR, link)]
  /\ dict_get FOCUS_NAVIGATOR (paint_contextRects apart) = None.
Proof.
  destruct (paint_keeps_distinct_rectangles_apart untransformed overlay apart
              button link eq_refl eq_refl) as (Hrects & Hmerged & _).
  - discriminate.
  - split; [exact Hrects | exact Hmerged].
Defined.

(** ** Updates and the paint pass together *)

Section UpdatesAndPaint.

Variable Obj : Type.
Variable getContextRect : Context -> option Obj -> resolution.

Local Abbreviation updateContextRect := (updateContextRect Obj getContextRect).

Lemma shown_after_write (m : NVDAMagnifier) (context : Context)
  (value : option RectLTWH) :
  context ∈ enabledContexts m ->
  shown (with_map (<[context := value]> (contextToRectMap m)) m) context = value.
Proof.
  intros Henabled. apply enabledContexts_are_the_flags_helper in Henabled.
  unfold shown, rect_of. cbn [_settings with_map contextToRectMap].
  rewrite Henabled, lookup_insert_eq. destruct value; reflexivity.
Qed.

(** X16: when the resolver fails for an enabled context with one of the
    four errors the code catches, [updateContextRect] returns normally, the
    entry of the context becomes [None], the engine gets no call, and the
    next paint pass draws nothing for that context, neither under its own
    key nor, for the focus and the navigator object, merged.  Any other
    error is raised to the caller with the state untouched. *)
Theorem resolver_failure_clears_the_outline (context : Context)
  (obj : option Obj) (m : NVDAMagnifier) (g : windows_utils.globals)
  (e : exception) :
  context ∈ enabledContexts m ->
  getContextRect context obj = Failed e ->
  (caught e = true ->
   let m' := with_map (<[context := None]> (contextToRectMap m)) m in
   updateContextRect context None obj (m, g) = (Returns tt, (m', g))
   /\ (forall rect, ~ In (context, rect) (paint_contextRects m'))
   /\ (context <> BROWSEMODE ->
       forall rect, ~ In (FOCUS_NAVIGATOR, rect) (paint_contextRects m')))
  /\ (caught e = false ->
      updateContextRect context None obj (m, g) = (Raises e, (m, g))).
Proof.
  intros Henabled Hfailed. split; intros Hcaught.
  - cbv zeta.
    pose proof (shown_after_write m context None Henabled) as Hshown.
    destruct (paint_contextRects_spec
                (with_map (<[context := None]> (contextToRectMap m)) m))
      as (Hdrawn & _).
    split; [| split].
    + unfold NVDAMagnifier.updateContextRect.
      rewrite bool_decide_eq_true_2 by exact Henabled. cbn [negb].
      rewrite Hfailed, Hcaught. reflexivity.
    + intros rect Hin. destruct (Hdrawn _ _ Hin) as [Hs | (-> & _)].
      * congruence.
      * apply FOCUS_NAVIGATOR_never_enabled in Henabled. exact Henabled.
    + intros Hnot rect Hin.
      destruct (Hdrawn _ _ Hin) as [Hs | (_ & Hfocus & Hnavigator)].
      * rewrite shown_FOCUS_NAVIGATOR in Hs. discriminate.
      * destruct context; try congruence.
        apply FOCUS_NAVIGATOR_never_enabled in Henabled. exact Henabled.
  - unfold NVDAMagnifier.updateContextRect.
    rewrite bool_decide_eq_true_2 by exact Henabled. cbn [negb].
    rewrite Hfailed, Hcaught. reflexivity.
Qed.

(** X17: a rectangle written for an enabled context is drawn by the next
    paint pass: under the context itself or, for the focus and the
    navigator object, possibly under the merged context. *)
Theorem updated_rectangle_is_painted (context : Context)
  (rect : option RectLTWH) (obj : option Obj) (m : NVDAMagnifier)
  (g : windows_utils.globals) (r : RectLTWH) :
  context ∈ enabledContexts m ->
  rect = Some r \/ (rect = None /\ getContextRect context obj = Resolved (Some r)) ->
  let m' := fst (snd (updateContextRect context rect obj (m, g))) in
  fst (updateContextRect context rect obj (m, g)) = Returns tt
  /\ (In (context, r) (paint_contextRects m')
      \/ ((context = FOCUS \/ context = NAVIGATOR)
          /\ In (FOCUS_NAVIGATOR, r) (paint_contextRects m'))).
Proof.
  intros Henabled Hrect. cbv zeta.
  assert (Hcall : updateContextRect context rect obj (m, g)
                  = (Returns tt,
                     (with_map (<[context := Some r]> (contextToRectMap m)) m,
                      windows_utils.set_pos (locationHelper.top r)
                        (locationHelper.left r) g))).
  { unfold NVDAMagnifier.updateContextRect.
    rewrite bool_decide_eq_true_2 by exact Henabled. cbn [negb].
    destruct Hrect as [-> | [-> ->]]; reflexivity. }
  rewrite Hcall. cbn [fst snd]. split; [reflexivity |].
  apply paint_contextRects_spec.
  apply shown_after_write, Henabled.
Qed.

End UpdatesAndPaint.

Lemma resolver_failure_clears_the_outline_witness :
  updateContextRect Z finds_nothing FOCUS None (Some 5)
    (on_button, windows_utils.module_init)
  = (Returns tt,
     (with_map (<[FOCUS := None]> (contextToRectMap on_button)) on_button,
      windows_utils.module_init)).
Proof.
  assert (Henabled : FOCUS ∈ enabledContexts on_button).
  { apply list_elem_of_In. simpl. auto. }
  exact (proj1 (proj1 (resolver_failure_clears_the_outline Z finds_nothing
                         FOCUS (Some 5) on_button windows_utils.module_init
                         LookupError Henabled eq_refl) eq_refl)).
Defined.

Lemma updated_rectangle_is_painted_witness :
  In (FOCUS, button)
     (paint_contextRects
        (fst (snd (updateContextRect Z finds_button FOCUS None (Some 5)
                     (focus_provider, windows_utils.module_init)))))
  \/ ((FOCUS = FOCUS \/ FOCUS = NAVIGATOR)
      /\ In (FOCUS_NAVIGATOR, button)
           (paint_contextRects
              (fst (snd (updateContextRect Z finds_button FOCUS None (Some 5)
                           (focus_provider, windows_utils.module_init)))))).
Proof.
  apply (updated_rectangle_is_painted Z finds_button FOCUS None (Some 5)
           focus_provider windows_utils.module_init button).
  - exact FOCUS_enabled_in_focus_provider.
  - right. split; reflexivity.
Defined.

(** ** Notifications, one after the other *)

Section NotificationsProofs.

Variable Obj : Type.

Lemma only_updated_refl (s : provider_state) : only_updated s s.
Proof.
  unfold only_updated. repeat split; auto.
  exists []. rewrite app_nil_r. split; [reflexivity | constructor].
Qed.

Lemma only_updated_trans (s0 s1 s2 : provider_state) :
  only_updated s0 s1 -> only_updated s1 s2 -> only_updated s0 s2.
Proof.
  intros (A1 & A2 & A3 & A4 & A5 & A6 & A7 & A8 & ra & A9 & A10)
         (B1 & B2 & B3 & B4 & B5 & B6 & B7 & B8 & rb & B9 & B10).
  unfold only_updated. repeat split; try congruence.
  - intros context Hkey. destruct (B5 context Hkey) as [Hold | Hen].
    + apply A5, Hold.
    + right. unfold enabledContexts in *. rewrite <- A1. exact Hen.
  - exists (ra ++ rb). rewrite B9, A9, app_assoc. split; [reflexivity |].
    apply Forall_app. split; assumption.
Qed.

Lemma updateContextRect_only_updates
  (getContextRect : Context -> option Obj -> resolution) (context : Context)
  (rect : option RectLTWH) (obj : option Obj) (s : provider_state) :
  only_updated s (snd (updateContextRect Obj getContextRect context rect obj s)).
Proof.
  destruct s as [m g]. unfold updateContextRect.
  destruct (bool_decide (context ∈ enabledContexts m)) eqn:Hen; cbn [negb];
    [| apply only_updated_refl].
  apply bool_decide_eq_true_1 in Hen.
  assert (Hwrite : forall value g',
            windows_utils.mag_level g' = windows_utils.mag_level g ->
            windows_utils.curr_color g' = windows_utils.curr_color g ->
            windows_utils.mag_on g' = windows_utils.mag_on g ->
            (exists repositions,
               windows_utils.engine g' = windows_utils.engine g ++ repositions
               /\ Forall is_reposition repositions) ->
            only_updated (m, g)
              (with_map (<[context := value]> (contextToRectMap m)) m, g')).
  { intros value g' H1 H2 H3 H4. unfold only_updated. cbn [fst snd].
    repeat split; auto.
    intros c Hkey. destruct (decide (c = context)) as [-> | Hne]; [auto |].
    left. cbn [with_map contextToRectMap] in Hkey.
    rewrite lookup_insert_ne in Hkey by congruence. exact Hkey. }
  assert (Hquiet : forall value,
            only_updated (m, g)
              (with_map (<[context := value]> (contextToRectMap m)) m, g)).
  { intros value. apply Hwrite; auto.
    exists []. rewrite app_nil_r. split; [reflexivity | constructor]. }
  assert (Hmoved : forall r,
            only_updated (m, g)
              (with_map (<[context := Some r]> (contextToRectMap m)) m,
               windows_utils.set_pos (locationHelper.top r)
                 (locationHelper.left r) g)).
  { intros r. apply Hwrite; auto.
    eexists. split; [reflexivity |].
    constructor; [| constructor]. eexists; eexists; reflexivity. }
  destruct rect as [r |]; [apply Hmoved |].
  destruct (getContextRect context obj) as [[r |] | e]; cbn [snd].
  - apply Hmoved.
  - apply Hquiet.
  - destruct (caught e); [apply Hquiet | apply only_updated_refl].
Qed.

Lemma deliver_only_updates (around : surroundings Obj) (n : notification Obj)
  (s : provider_state) :
  only_updated s (snd (deliver Obj around n s)).
Proof.
  destruct n; cbn [deliver].
  - unfold handleFocusChange.
    pose proof (updateContextRect_only_updates (resolve Obj around) FOCUS None
                  (Some obj) s) as Hfocus.
    destruct (updateContextRect Obj (resolve Obj around) FOCUS None (Some obj) s)
      as [[[] | e |] [m1 g1]]; cbn [snd] in *; try exact Hfocus.
    destruct (negb (inside Obj around obj)).
    + cbn [snd]. eapply only_updated_trans; [exact Hfocus |].
      unfold only_updated. cbn [fst snd]. repeat split; auto.
      * intros c Hkey. left. cbn [with_map contextToRectMap] in Hkey.
        destruct (decide (c = BROWSEMODE)) as [-> | Hne].
        -- rewrite lookup_delete_eq in Hkey. contradiction.
        -- rewrite lookup_delete_ne in Hkey by congruence. exact Hkey.
      * exists []. rewrite app_nil_r. split; [reflexivity | constructor].
    + eapply only_updated_trans; [exact Hfocus |].
      apply updateContextRect_only_updates.
  - apply updateContextRect_only_updates.
  - apply updateContextRect_only_updates.
  - apply updateContextRect_only_updates.
Qed.

Lemma deliver_all_only_updates
  (ns : list (surroundings Obj * notification Obj)) (s : provider_state) :
  only_updated s (deliver_all Obj ns s).
Proof.
  revert s. induction ns as [| [around n] ns IH]; intros s.
  - apply only_updated_refl.
  - unfold deliver_all. cbn [fold_left fst snd].
    eapply only_updated_trans; [apply deliver_only_updates |].
    apply IH.
Qed.

(** X18: whatever notifications a provider receives after its construction,
    with whatever answers from the resolver, the map only ever holds keys
    of enabled contexts; in particular the merged context is never a key,
    it exists in the paint pass alone. *)
Theorem map_holds_enabled_contexts_only
  (ns : list (surroundings Obj * notification Obj))
  (settings : NVDAMagnifierSettings) (g : windows_utils.globals) :
  let m := fst (deliver_all Obj ns (fresh_provider settings, g)) in
  (forall context,
     contextToRectMap m !! context <> None ->
     setting_of settings context = true)
  /\ contextToRectMap m !! FOCUS_NAVIGATOR = None
  /\ _settings m = settings.
Proof.
  cbv zeta.
  destruct (deliver_all_only_updates ns (fresh_provider settings, g))
    as (Hsettings & _ & _ & _ & Hkeys & _).
  cbn [fst snd] in *.
  assert (Hflag : forall context,
            contextToRectMap (fst (deliver_all Obj ns (fresh_provider settings, g)))
              !! context <> None ->
            setting_of settings context = true).
  { intros context Hkey. destruct (Hkeys context Hkey) as [Hold | Hen].
    - exfalso. apply Hold. reflexivity.
    - apply enabledContexts_are_the_flags_helper in Hen. exact Hen. }
  split; [exact Hflag |]. split; [| exact Hsettings].
  destruct (contextToRectMap _ !! FOCUS_NAVIGATOR) eqn:Hkey; [| reflexivity].
  specialize (Hflag FOCUS_NAVIGATOR). rewrite Hkey in Hflag.
  discriminate Hflag. discriminate.
Qed.

(** X19: notifications never touch the tracked magnification level, the
    colour index or the engine switch; all they send to the engine are
    repositions, and each reposition carries zoom factor 2 whatever the
    tracked level is.  After a reposition the engine is therefore at factor
    2 even when the tracked level says otherwise. *)
Theorem notifications_only_reposition
  (ns : list (surroundings Obj * notification Obj)) (s : provider_state) :
  let s' := deliver_all Obj ns s in
  windows_utils.mag_level (snd s') = windows_utils.mag_level (snd s)
  /\ windows_utils.curr_color (snd s') = windows_utils.curr_color (snd s)
  /\ windows_utils.mag_on (snd s') = windows_utils.mag_on (snd s)
  /\ exists repositions,
       windows_utils.engine (snd s')
       = windows_utils.engine (snd s) ++ repositions
       /\ Forall is_reposition repositions
       /\ (repositions <> [] ->
           exists offset,
             windows_utils.last_transform (snd s') = Some (2, offset)).
Proof.
  cbv zeta.
  destruct (deliver_all_only_updates ns s)
    as (_ & _ & _ & _ & _ & Hlevel & Hcolor & Hon & reps & Hengine & Hreps).
  split; [exact Hlevel |]. split; [exact Hcolor |]. split; [exact Hon |].
  exists reps. split; [exact Hengine |]. split; [exact Hreps |].
  intros Hsome. unfold windows_utils.last_transform. rewrite Hengine.
  destruct (exists_last Hsome) as (front & c & ->).
  apply Forall_app in Hreps as [_ Hlast].
  inversion Hlast as [| ? ? (x & y & ->) _]; subst.
  rewrite app_assoc, rev_app_distr. simpl. eauto.
Qed.

End NotificationsProofs.

Example zoom_three_then_focus_change :
  let g := windows_utils.mag_increase
             (windows_utils.mag_increase windows_utils.module_init) in
  let s := deliver_all Z
             [(MkSurroundings Z finds_button in_interceptor, Focus_changed Z 5)]
             (fresh_provider all_enabled, g) in
  windows_utils.mag_level (snd s) = 3
  /\ windows_utils.last_transform (snd s) = Some (2, (120, 300)).
Proof. split; reflexivity. Qed.

(** ** Construction and termination, again *)

(** The wait of the constructor: it answers within the timeout, with the
    flag as it is at that tick, and answers [false] only at the timeout. *)
Lemma init_wait_spec (worker : nat -> progress) :
  exists (b : bool) (n : nat),
    Event_wait (fun n => event_set (worker n)) (Some init_timeout) init_timeout
    = Some (b, n)
    /\ (n <= init_timeout)%nat
    /\ event_set (worker n) = b
    /\ (b = false -> n = init_timeout)
    /\ (forall k, (k < n)%nat -> event_set (worker k) = false).
Proof.
  destruct (python_proofs.Event_wait_timeout_answers
              (fun n => event_set (worker n)) init_timeout init_timeout
              (Nat.le_refl _)) as (b & n & Hwait & Hn).
  pose proof (python_proofs.Event_wait_from_spec
                (fun n => event_set (worker n)) (Some init_timeout)
                init_timeout 0) as Hspec.
  unfold Event_wait in Hwait. rewrite Hwait in Hspec.
  destruct Hspec as (_ & Hflag & Hout & Hbefore).
  exists b, n. split; [exact Hwait |]. split; [exact Hn |].
  split; [exact Hflag |]. split.
  - intros Hb. specialize (Hout Hb). unfold timed_out in Hout.
    apply Nat.leb_le in Hout. lia.
  - intros k Hk. apply Hbefore. lia.
Qed.

(** X20: the constructor never waits longer than its timeout, and it
    returns normally exactly when, at the first tick at which the running
    event is set, that tick is within the timeout and the worker thread is
    alive.  On a normal return the overlay window has been assigned, the
    map is empty and GDI+ is initialised. *)
Theorem constructor_returns_iff_started_in_time
  (settings : NVDAMagnifierSettings) (ident : Z) (worker : nat -> progress) :
  fst (__init__ settings ident worker) <> Blocks
  /\ (fst (__init__ settings ident worker) = Returns tt
      <-> exists n, (n <= init_timeout)%nat
                    /\ event_set (worker n) = true
                    /\ thread_is_alive (worker n) = true
                    /\ forall k, (k < n)%nat -> event_set (worker k) = false)
  /\ (fst (__init__ settings ident worker) = Returns tt ->
      _window (snd (__init__ settings ident worker)) <> None
      /\ contextToRectMap (snd (__init__ settings ident worker)) = ∅
      /\ gdiPlus (snd (__init__ settings ident worker)) = true
      /\ _magnifierThread (snd (__init__ settings ident worker)) = Some ident).
Proof.
  destruct (init_wait_spec worker) as (b & n & Hwait & Hn & Hflag & Hout & Hbefore).
  unfold __init__. rewrite Hwait. 
  split; [destruct (negb b || negb (thread_is_alive (worker n))); discriminate |].
  split; [split |].
  - intros Hret. exists n.
    destruct b; [| discriminate].
    destruct (thread_is_alive (worker n)); [| discriminate].
    auto.
  - intros (k & Hk & Hset & Halive & Hfirst).
    assert (k = n) as ->.
    { destruct (Nat.lt_trichotomy k n) as [Hlt | [Heq | Hgt]]; [| exact Heq |].
      - rewrite (Hbefore k Hlt) in Hset. discriminate.
      - rewrite (Hfirst n Hgt) in Hflag. subst b.
        specialize (Hout eq_refl). lia. }
    rewrite Hset in Hflag. subst b. rewrite Halive. reflexivity.
  - intros Hret.
    destruct b; [| discriminate].
    destruct (thread_is_alive (worker n)); [| discriminate].
    cbn [fst snd negb orb] in *.
    destruct (worker n); try discriminate; cbn; repeat split; auto; discriminate.
Qed.

Lemma starts_in_time_witness_facts :
  (60 <= init_timeout)%nat
  /\ event_set (starts_in_time 60) = true
  /\ thread_is_alive (starts_in_time 60) = true
  /\ forall k, (k < 60)%nat -> event_set (starts_in_time k) = false.
Proof.
  split; [unfold init_timeout; lia |]. split; [reflexivity |].
  split; [reflexivity |].
  intros k Hk. unfold starts_in_time.
  destruct (Nat.ltb_spec k 60); [reflexivity | lia].
Qed.

Lemma constructor_returns_iff_started_in_time_witness :
  fst (__init__ all_enabled 77 starts_in_time) = Returns tt.
Proof.
  apply (proj2 (proj1 (proj2 (constructor_returns_iff_started_in_time
                                all_enabled 77 starts_in_time)))).
  exists 60%nat. exact starts_in_time_witness_facts.
Defined.

(** ** The settings panel *)

Section PanelProofs.

Variable Control : Type.
Variable getProviderInstance : Control -> bool.
Variable startProvider : Control -> bool * Control.
Variable terminateProvider : Control -> bool * Control.

Local Abbreviation _ensureEnableState :=
  (_ensureEnableState Control getProviderInstance startProvider terminateProvider).
Local Abbreviation _updateEnabledState :=
  (_updateEnabledState Control getProviderInstance startProvider terminateProvider).
Local Abbreviation _onEnableFailure :=
  (_onEnableFailure Control getProviderInstance startProvider terminateProvider).
Local Abbreviation _onCheckEvent :=
  (_onCheckEvent Control getProviderInstance startProvider terminateProvider).

Implicit Types (p : panel Control) (g : windows_utils.globals).

(** What [_ensureEnableState] does to the panel and the engine. *)
Lemma ensure_spec (should : bool) p g :
  let r := _ensureEnableState should (p, g) in
  storage Control (fst (snd r)) = storage Control p
  /\ _enabledCheckbox Control (fst (snd r)) = _enabledCheckbox Control p
  /\ refreshed Control (fst (snd r)) = refreshed Control p
  /\ snd (snd r)
     = (if should && negb (getProviderInstance (_providerControl Control p))
        then windows_utils.set_level (windows_utils.run_mag g) else g)
  /\ (should && negb (getProviderInstance (_providerControl Control p)) = true ->
      fst r = fst (startProvider (_providerControl Control p)))
  /\ (should = false -> snd (snd r) = g).
Proof.
  cbv zeta. unfold NVDAMagnifier._ensureEnableState.
  destruct should, (getProviderInstance (_providerControl Control p));
    cbn [andb negb];
    try destruct (startProvider (_providerControl Control p)) as [ok c];
    try destruct (terminateProvider (_providerControl Control p)) as [ok' c'];
    cbn [fst snd]; repeat split; auto; discriminate.
Qed.

(** With all settings off, [_updateEnabledState] unchecks the box and
    returns without a further call. *)
Lemma update_when_all_off (fuel : nat) p g :
  storage Control p = all_set false ->
  exists p',
    _updateEnabledState (S fuel) (p, g) = Some (p', g)
    /\ storage Control p' = all_set false
    /\ _enabledCheckbox Control p' = CHK_UNCHECKED
    /\ refreshed Control p' = refreshed Control p.
Proof.
  intros Hoff. cbn [NVDAMagnifier._updateEnabledState]. rewrite Hoff.
  cbn [any_setting all_settings all_set magnifyBrowseMode magnifyFocus
         magnifyNavigator orb andb].
  pose proof (ensure_spec false (with_checkbox Control CHK_UNCHECKED p) g)
    as (H1 & H2 & H3 & _ & _ & H6).
  cbv zeta in *.
  destruct (_ensureEnableState false (with_checkbox Control CHK_UNCHECKED p, g))
    as [ok [p' g']]. cbn [fst snd] in *.
  rewrite andb_false_r. rewrite (H6 eq_refl).
  exists p'. split; [reflexivity |]. rewrite H1, H2, H3. auto.
Qed.

Lemma update_all_off_any_fuel (fuel : nat) p g :
  storage Control p = all_set false ->
  _updateEnabledState (S fuel) (p, g) = _updateEnabledState 1 (p, g).
Proof.
  intros Hoff. cbn [NVDAMagnifier._updateEnabledState]. rewrite Hoff.
  cbn [any_setting all_settings all_set magnifyBrowseMode magnifyFocus
         magnifyNavigator orb andb].
  destruct (_ensureEnableState false (with_checkbox Control CHK_UNCHECKED p, g))
    as [ok [p' g']].
  rewrite andb_false_r. reflexivity.
Qed.

(** Two levels of calls are all [_updateEnabledState] ever needs. *)
Lemma update_fuel_irrelevant (fuel : nat) p g :
  (2 <= fuel)%nat ->
  _updateEnabledState fuel (p, g) = _updateEnabledState 2 (p, g).
Proof.
  intros Hfuel. destruct fuel as [| fuel]; [lia |].
  change 2%nat with (S 1). cbn [NVDAMagnifier._updateEnabledState].
  destruct (_ensureEnableState _ _) as [ok [p' g']].
  destruct (negb ok && any_setting (storage Control p)); [| reflexivity].
  destruct fuel as [| fuel]; [lia |].
  apply update_all_off_any_fuel. reflexivity.
Qed.

(** One call of [_updateEnabledState], whatever the settings. *)
Lemma update_spec (fuel : nat) p g :
  (2 <= fuel)%nat ->
  let wanted := any_setting (storage Control p) in
  let idle := negb (getProviderInstance (_providerControl Control p)) in
  let failed := wanted && idle && negb (fst (startProvider (_providerControl Control p))) in
  exists p' g',
    _updateEnabledState fuel (p, g) = Some (p', g')
    /\ storage Control p'
       = (if failed then all_set false else storage Control p)
    /\ _enabledCheckbox Control p' = summary (storage Control p')
    /\ g' = (if wanted && idle
             then windows_utils.set_level (windows_utils.run_mag g) else g)
    /\ refreshed Control p' = refreshed Control p
    /\ (wanted = true -> idle = false ->
        fst (_ensureEnableState true (p, g)) = true /\ failed = false).
Proof.
  intros Hfuel. cbv zeta.
  destruct fuel as [| fuel]; [lia |].
  cbn [NVDAMagnifier._updateEnabledState].
  destruct fuel as [| fuel]; [lia |].
  set (p1 := if all_settings (storage Control p)
             then with_checkbox Control CHK_CHECKED p
             else if any_setting (storage Control p)
                  then with_checkbox Control CHK_UNDETERMINED p
                  else with_checkbox Control CHK_UNCHECKED p).
  assert (Hp1 : storage Control p1 = storage Control p
                /\ _providerControl Control p1 = _providerControl Control p
                /\ refreshed Control p1 = refreshed Control p
                /\ _enabledCheckbox Control p1 = summary (storage Control p)).
  { subst p1. unfold summary.
    destruct (all_settings (storage Control p));
      [| destruct (any_setting (storage Control p))]; auto. }
  destruct Hp1 as (Hs1 & Hc1 & Hr1 & Hb1).
  pose proof (ensure_spec (any_setting (storage Control p)) p1 g)
    as (H1 & H2 & H3 & H4 & H5 & H6).
  cbv zeta in *. rewrite Hc1 in *.
  destruct (_ensureEnableState (any_setting (storage Control p)) (p1, g))
    as [ok [p2 g2]] eqn:Hensure. cbn [fst snd] in *.
  destruct (any_setting (storage Control p)) eqn:Hany.
  - destruct (getProviderInstance (_providerControl Control p)) eqn:Hrun;
      cbn [negb andb] in *.
    + (* an instance exists: nothing to start *)
      assert (ok = true).
      { unfold NVDAMagnifier._ensureEnableState in Hensure.
        rewrite Hc1, Hrun in Hensure. cbn [andb negb] in Hensure.
        congruence. }
      subst ok. cbn [negb andb].
      exists p2, g2. rewrite H1, H2, H3, Hs1, Hb1, Hr1, H4.
      repeat split; auto.
      unfold NVDAMagnifier._ensureEnableState. cbn [fst snd].
      rewrite Hrun. reflexivity.
    + rewrite (H5 eq_refl).
      destruct (fst (startProvider (_providerControl Control p))) eqn:Hstart;
        cbn [negb andb].
      * exists p2, g2. rewrite H1, H2, H3, Hs1, Hb1, Hr1, H4.
        repeat split; auto; discriminate.
      * destruct (update_when_all_off fuel
                    (with_storage Control (all_set false) p2) g2 eq_refl)
          as (p3 & Hcall & Hs3 & Hb3 & Hr3).
        rewrite Hcall. exists p3, g2. rewrite Hs3, Hb3, Hr3, H4.
        cbn [with_storage refreshed]. rewrite H3, Hr1.
        repeat split; auto; discriminate.
  - cbn [andb]. rewrite andb_false_r.
    exists p2, g2. rewrite H1, H2, H3, Hs1, Hb1, Hr1, (H6 eq_refl).
    repeat split; auto; discriminate.
Qed.

(** X22: [_updateEnabledState] always comes to an end (two nested calls at
    most), and when it has, the master checkbox agrees with the stored
    settings: checked when all three are on, unchecked when none is,
    undetermined otherwise.  The settings are the ones it found, unless a
    provider start was needed and failed: then all three are off. *)
Theorem checkbox_agrees_with_settings (fuel : nat) p g :
  (2 <= fuel)%nat ->
  exists p' g',
    _updateEnabledState fuel (p, g) = Some (p', g')
    /\ _enabledCheckbox Control p' = summary (storage Control p')
    /\ (storage Control p' = storage Control p
        \/ (storage Control p' = all_set false
            /\ any_setting (storage Control p) = true
            /\ getProviderInstance (_providerControl Control p) = false
            /\ fst (startProvider (_providerControl Control p)) = false))
    /\ _updateEnabledState fuel (p, g) = _updateEnabledState 2 (p, g).
Proof.
  intros Hfuel.
  destruct (update_spec fuel p g Hfuel) as (p' & g' & Hcall & Hs & Hb & Hg & _).
  cbv zeta in *.
  exists p', g'. split; [exact Hcall |]. split; [exact Hb |]. split.
  - destruct (any_setting (storage Control p)) eqn:Hany;
      destruct (getProviderInstance (_providerControl Control p)) eqn:Hrun;
      destruct (fst (startProvider (_providerControl Control p))) eqn:Hstart;
      cbn [negb andb] in Hs; auto.
  - apply update_fuel_irrelevant, Hfuel.
Qed.

Lemma ensure_answer (should : bool) p g :
  fst (_ensureEnableState should (p, g))
  = (if should && negb (getProviderInstance (_providerControl Control p))
     then fst (startProvider (_providerControl Control p))
     else if negb should && getProviderInstance (_providerControl Control p)
          then fst (terminateProvider (_providerControl Control p))
          else true).
Proof.
  unfold NVDAMagnifier._ensureEnableState.
  destruct should, (getProviderInstance (_providerControl Control p));
    cbn [andb negb];
    try destruct (startProvider (_providerControl Control p)) as [ok c];
    try destruct (terminateProvider (_providerControl Control p)) as [ok' c'];
    reflexivity.
Qed.

Ltac refresh_cases q :=
  destruct (getProviderInstance (_providerControl Control q)) eqn:Hq;
  eexists; eexists; (split; [reflexivity |]);
  cbn [storage _enabledCheckbox _providerControl refreshed];
  rewrite ?Hq.

(** X23: an event of the master checkbox leaves the three settings equal to
    each other: all as the box was set, or all off when the box was checked
    but the provider had to be started and would not start.  Unchecking
    always turns the three off, whatever terminating the provider answers.
    The provider instance, if the control yields one afterwards, is
    refreshed once. *)
Theorem master_checkbox_sets_all_three (fuel : nat) (checked : bool) p g :
  (2 <= fuel)%nat ->
  let idle := negb (getProviderInstance (_providerControl Control p)) in
  let failed :=
    checked && idle && negb (fst (startProvider (_providerControl Control p))) in
  exists p' g',
    _onCheckEvent fuel true checked (p, g) = Some (p', g')
    /\ storage Control p' = all_set (checked && negb failed)
    /\ (failed = true -> _enabledCheckbox Control p' = CHK_UNCHECKED)
    /\ g' = (if checked && idle
             then windows_utils.set_level (windows_utils.run_mag g) else g)
    /\ refreshed Control p'
       = (if getProviderInstance (_providerControl Control p')
          then S (refreshed Control p) else refreshed Control p).
Proof.
  intros Hfuel. cbv zeta. unfold NVDAMagnifier._onCheckEvent.
  pose proof (ensure_spec checked (with_storage Control (all_set checked) p) g)
    as (H1 & H2 & H3 & H4 & _ & _).
  pose proof (ensure_answer checked (with_storage Control (all_set checked) p) g)
    as Hok.
  cbv zeta in *. cbn [with_storage _providerControl storage refreshed] in *.
  destruct (_ensureEnableState checked (with_storage Control (all_set checked) p, g))
    as [ok [p1 g1]]. cbn [fst snd] in *.
  destruct checked; cbn [andb negb] in *.
  - destruct (getProviderInstance (_providerControl Control p)) eqn:Hrun;
      cbn [negb andb] in *.
    + subst ok. cbn [negb andb].
      refresh_cases p1; rewrite H1, H3, H4; repeat split; auto; discriminate.
    + rewrite Hok.
      destruct (fst (startProvider (_providerControl Control p))) eqn:Hstart;
        cbn [negb andb].
      * refresh_cases p1; rewrite H1, H3, H4; repeat split; auto; discriminate.
      * unfold NVDAMagnifier._onEnableFailure.
        destruct fuel as [| fuel]; [lia |].
        destruct (update_when_all_off fuel
                    (with_storage Control (all_set false) p1) g1 eq_refl)
          as (p2 & Hcall & Hs2 & Hb2 & Hr2).
        rewrite Hcall.
        refresh_cases p2; rewrite Hs2, Hb2, Hr2, H4;
          cbn [with_storage refreshed]; rewrite H3; repeat split; auto.
  - rewrite andb_false_r.
    refresh_cases p1; rewrite H1, H3, H4; repeat split; auto; discriminate.
Qed.

(** X24: the panel initialises the magnification engine and sets zoom
    factor 2 exactly when a setting is on and the control yields no
    provider instance, before it knows whether the provider will start.
    It never finalises the engine: after a failed start the engine switch
    [mag_on] stays on although every setting is off, and the tracked level
    and colour index are untouched. *)
Theorem panel_starts_the_engine_before_the_provider (fuel : nat) p g :
  (2 <= fuel)%nat ->
  let needed :=
    any_setting (storage Control p)
    && negb (getProviderInstance (_providerControl Control p)) in
  exists p' g',
    _updateEnabledState fuel (p, g) = Some (p', g')
    /\ windows_utils.engine g'
       = windows_utils.engine g
         ++ (if needed
             then [mag.initialize; mag.set_fullscreen_transform 2 (2, 2)]
             else [])
    /\ windows_utils.mag_on g' = (needed || windows_utils.mag_on g)
    /\ windows_utils.mag_level g' = windows_utils.mag_level g
    /\ windows_utils.curr_color g' = windows_utils.curr_color g
    /\ ~ In mag.finalize
          (if needed
           then [mag.initialize; mag.set_fullscreen_transform 2 (2, 2)]
           else [])
    /\ (needed = true ->
        fst (startProvider (_providerControl Control p)) = false ->
        storage Control p' = all_set false
        /\ windows_utils.mag_on g' = true).
Proof.
  intros Hfuel. cbv zeta.
  destruct (update_spec fuel p g Hfuel) as (p' & g' & Hcall & Hs & _ & Hg & _).
  cbv zeta in *. exists p', g'. split; [exact Hcall |].
  destruct (any_setting (storage Control p)
            && negb (getProviderInstance (_providerControl Control p))) eqn:Hneeded;
    subst g'.
  - cbn [orb]. unfold windows_utils.set_level, windows_utils.run_mag,
      windows_utils.emit. cbn. rewrite <- app_assoc. cbn [app].
    split; [reflexivity |]. split; [reflexivity |]. split; [reflexivity |].
    split; [reflexivity |].
    split; [intros [Hfin | [Hfin | []]]; discriminate |].
    intros _ Hstart. rewrite Hstart in Hs. cbn in Hs.
    split; [exact Hs | reflexivity].
  - rewrite app_nil_r. cbn [orb].
    split; [reflexivity |]. split; [reflexivity |]. split; [reflexivity |].
    split; [reflexivity |]. split; [intros [] |].
    intros Hcontra. discriminate.
Qed.

(** X25: when a setting is on, no provider instance exists and the provider
    does not start, [_updateEnabledState] turns every setting off and
    unchecks the box.  A provider reading those settings then has no enabled
    context: every [updateContextRect] is a no-op for it and its paint pass
    has nothing to draw. *)
Theorem failed_start_disables_every_context (fuel : nat) p g :
  (2 <= fuel)%nat ->
  any_setting (storage Control p) = true ->
  getProviderInstance (_providerControl Control p) = false ->
  fst (startProvider (_providerControl Control p)) = false ->
  exists p' g',
    _updateEnabledState fuel (p, g) = Some (p', g')
    /\ storage Control p' = all_set false
    /\ _enabledCheckbox Control p' = CHK_UNCHECKED
    /\ forall (m : NVDAMagnifier),
         _settings m = storage Control p' ->
         enabledContexts m = []
         /\ paint_contextRects m = []
         /\ forall (Obj : Type) (resolver : Context -> option Obj -> resolution)
                   context rect obj (h : windows_utils.globals),
              updateContextRect Obj resolver context rect obj (m, h)
              = (Returns tt, (m, h)).
Proof.
  intros Hfuel Hany Hidle Hstart.
  destruct (update_spec fuel p g Hfuel) as (p' & g' & Hcall & Hs & Hb & _).
  cbv zeta in *. rewrite Hany, Hidle, Hstart in Hs. cbn in Hs.
  exists p', g'. split; [exact Hcall |]. split; [exact Hs |].
  split; [rewrite Hb, Hs; reflexivity |].
  intros m Hm. rewrite Hs in Hm.
  assert (Hnone : enabledContexts m = []).
  { rewrite enabledContexts_unfold, Hm. reflexivity. }
  split; [exact Hnone |].
  split; [unfold paint_contextRects; rewrite Hnone; reflexivity |].
  intros Obj resolver context rect obj h.
  unfold updateContextRect. rewrite Hnone.
  rewrite bool_decide_eq_false_2 by (apply not_elem_of_nil). reflexivity.
Qed.

End PanelProofs.

Lemma checkbox_agrees_with_settings_witness :
  exists p' g',
    _updateEnabledState bool has_instance never_starts stops 5
      (focus_panel, windows_utils.module_init) = Some (p', g')
    /\ _enabledCheckbox bool p' = summary (storage bool p').
Proof.
  destruct (checkbox_agrees_with_settings bool has_instance never_starts stops
              5 focus_panel windows_utils.module_init)
    as (p' & g' & Hcall & Hbox & _).
  - lia.
  - exists p', g'. split; [exact Hcall | exact Hbox].
Defined.

Lemma master_checkbox_sets_all_three_witness :
  exists p' g',
    _onCheckEvent bool has_instance never_starts stops 2 true true
      (focus_panel, windows_utils.module_init) = Some (p', g')
    /\ storage bool p' = all_set false.
Proof.
  destruct (master_checkbox_sets_all_three bool has_instance never_starts stops
              2 true focus_panel windows_utils.module_init)
    as (p' & g' & Hcall & Hstorage & _).
  - lia.
  - exists p', g'. split; [exact Hcall | exact Hstorage].
Defined.

Lemma panel_starts_the_engine_before_the_provider_witness :
  exists p' g',
    _updateEnabledState bool has_instance never_starts stops 2
      (focus_panel, windows_utils.module_init) = Some (p', g')
    /\ windows_utils.engine g'
       = [mag.initialize; mag.set_fullscreen_transform 2 (2, 2)]
    /\ windows_utils.mag_on g' = true.
Proof.
  destruct (panel_starts_the_engine_before_the_provider bool has_instance
              never_starts stops 2 focus_panel windows_utils.module_init)
    as (p' & g' & Hcall & Hengine & Hon & _).
  - lia.
  - exists p', g'. split; [exact Hcall |]. split; [exact Hengine | exact Hon].
Defined.

Lemma failed_start_disables_every_context_witness :
  exists p' g',
    _updateEnabledState bool has_instance never_starts stops 2
      (focus_panel, windows_utils.module_init) = Some (p', g')
    /\ storage bool p' = all_set false
    /\ _enabledCheckbox bool p' = CHK_UNCHECKED.
Proof.
  destruct (failed_start_disables_every_context bool has_instance never_starts
              stops 2 focus_panel windows_utils.module_init)
    as (p' & g' & Hcall & Hstorage & Hbox & _).
  - lia.
  - reflexivity.
  - reflexivity.
  - reflexivity.
  - exists p', g'. split; [exact Hcall |]. split; [exact Hstorage | exact Hbox].
Defined.

End NVDAMagnifier_proofs.
